(** * NutriTailor AI backend: the chat core of [main.py]

    A shallow embedding of the reply generator [generate_nutrition_reply],
    of the [/api/chat] and [/api/messages] handlers, and of the Python
    built-ins they rest on, followed by the properties of the
    specification that concern them. *)

From Stdlib Require Import List NArith ZArith Lia Bool String Ascii.
From Stdlib Require Import Strings.Byte.
From Stdlib Require Import Sorting.Permutation.
Import ListNotations.

(** * Python strings *)

Module Py.

Local Open Scope N_scope.

(** A Python [str] is a sequence of Unicode code points. *)
Definition char := N.
Definition str := list char.

(** A literal of the source, for the ASCII part of a literal. *)
Definition lit (s : string) : str :=
  map N_of_ascii (list_ascii_of_string s).

Definition str_eqb (a b : str) : bool :=
  if list_eq_dec N.eq_dec a b then true else false.

(** Truth value of a string: the empty string is falsy. *)
Definition truthy (s : str) : bool :=
  match s with [] => false | _ :: _ => true end.

(** [s.startswith(p)] *)
Fixpoint startswith (p s : str) : bool :=
  match p, s with
  | [], _ => true
  | _ :: _, [] => false
  | a :: p', b :: s' => N.eqb a b && startswith p' s'
  end.

(** [needle in hay]: plain substring containment. *)
Fixpoint contains (needle hay : str) : bool :=
  startswith needle hay ||
  match hay with
  | [] => false
  | _ :: hay' => contains needle hay'
  end.

(** [any(k in text for k in keys)] *)
Definition any_in (keys : list str) (text : str) : bool :=
  existsb (fun k => contains k text) keys.

(** [sep.join(parts)] *)
Fixpoint join (sep : str) (parts : list str) : str :=
  match parts with
  | [] => []
  | [p] => p
  | p :: rest => p ++ sep ++ join sep rest
  end.

(** [str.lower] one code point at a time.  ASCII capitals go to their small
    letters.  Two code points outside ASCII lowercase to a sequence that
    holds an ASCII letter and are given in full: U+0130 (to "i" followed by
    U+0307) and the Kelvin sign U+212A (to "k").  Every other code point
    is left as it is: its lowercase form lies outside ASCII as well, so it
    takes no part in a containment test against the ASCII keywords below,
    and the reply never repeats the user's text. *)
Definition lower_char (c : char) : str :=
  if (65 <=? c) && (c <=? 90) then [c + 32]
  else if c =? 304 then [105; 775]
  else if c =? 8490 then [107]
  else [c].

Definition lower (s : str) : str := flat_map lower_char s.

(** [str.isspace] on one code point: the white space of Unicode
    (bidirectional classes WS, B, S and category Zs). *)
Definition isspace (c : char) : bool :=
  ((9 <=? c) && (c <=? 13)) || ((28 <=? c) && (c <=? 32)) ||
  (c =? 133) || (c =? 160) || (c =? 5760) ||
  ((8192 <=? c) && (c <=? 8202)) || (c =? 8232) || (c =? 8233) ||
  (c =? 8239) || (c =? 8287) || (c =? 12288).

Fixpoint lstrip (s : str) : str :=
  match s with
  | [] => []
  | c :: s' => if isspace c then lstrip s' else s
  end.

Definition rstrip (s : str) : str := rev (lstrip (rev s)).

(** [s.strip()] *)
Definition strip (s : str) : str := rstrip (lstrip s).

(** [bytes.hex()]: two lowercase hexadecimal digits per byte. *)
Definition hexdigit (n : N) : char :=
  if n <? 10 then 48 + n else 87 + n.

Definition hex_byte (b : byte) : str :=
  let n := Byte.to_N b in [hexdigit (n / 16); hexdigit (n mod 16)].

Definition hex (bs : list byte) : str := flat_map hex_byte bs.

Definition is_hexdigit (c : char) : bool :=
  ((48 <=? c) && (c <=? 57)) || ((97 <=? c) && (c <=? 102)).

(** Reading a printed byte string back, two digits at a time. *)
Definition unhexdigit (c : char) : N :=
  if c <? 58 then c - 48 else c - 87.

Definition unhex_byte (c1 c2 : char) : option byte :=
  Byte.of_N (16 * unhexdigit c1 + unhexdigit c2).

Fixpoint unhex (s : str) : list (option byte) :=
  match s with
  | c1 :: c2 :: s' => unhex_byte c1 c2 :: unhex s'
  | _ => []
  end.

End Py.

Import Py.
Local Open Scope N_scope.

(** * The reply generator *)

(** The keyword lists of the four goals, in the order of the source. *)
Definition weight_loss_keys : list str :=
  [lit "weight loss"; lit "lose weight"; lit "fat loss"].
Definition muscle_gain_keys : list str :=
  [lit "muscle"; lit "gain weight"; lit "bulk"].
Definition energy_keys : list str :=
  [lit "energy"; lit "tired"; lit "fatigue"].
Definition gut_health_keys : list str :=
  [lit "ibs"; lit "gut"; lit "bloat"].

(** The fragments of the reply. *)
Definition opening : str :=
  lit "Thanks for sharing. I'm your AI nutritional therapist.".

(** The dash of "25-35g" is U+2013 in the source. *)
Definition general_guidance : str :=
  lit "General guidance: focus on whole foods, 25" ++ [8211] ++
  lit "35g protein per meal, plenty of colorful veg, and hydrate.".

Definition breakfast_fragment : str :=
  lit "For breakfast, try Greek yogurt with berries and nuts, or eggs with spinach and wholegrain toast.".

Definition vegan_fragment : str :=
  lit "For a vegan approach, prioritize legumes, tofu/tempeh, whole grains, seeds, and B12-fortified foods.".

(** The hyphen of "7-day" is U+2011 in the source. *)
Definition meal_plan_fragment : str :=
  lit "I can also create a tailored 7" ++ [8209] ++
  lit "day meal plan if you share preferences, allergies, and budget.".

Definition closing : str :=
  lit "Would you like me to estimate your daily calorie target and macros based on age, height, weight, sex, activity?".

(** [if cond: xs.append(x)] *)
Definition append_if {A} (cond : bool) (x : A) (xs : list A) : list A :=
  if cond then xs ++ [x] else xs.

(** The list [goals] of the source when the tests are over. *)
Definition detect_goals (text : str) : list str :=
  let goals := [] in
  let goals := append_if (any_in weight_loss_keys text) (lit "weight loss") goals in
  let goals := append_if (any_in muscle_gain_keys text) (lit "muscle gain") goals in
  let goals := append_if (any_in energy_keys text) (lit "energy") goals in
  let goals := append_if (any_in gut_health_keys text) (lit "gut health") goals in
  goals.

(** [f"I detect goals around {', '.join(goals)}."] *)
Definition goal_fragment (goals : list str) : str :=
  lit "I detect goals around " ++ join (lit ", ") goals ++ lit ".".

(** The list [parts] of the source just before the join. *)
Definition reply_parts (text : str) : list str :=
  let goals := detect_goals text in
  let parts := [opening] in
  let parts :=
    match goals with
    | [] => parts
    | _ :: _ => parts ++ [goal_fragment goals]
    end in
  let parts := parts ++ [general_guidance] in
  let parts := append_if (contains (lit "breakfast") text) breakfast_fragment parts in
  let parts := append_if (contains (lit "vegan") text) vegan_fragment parts in
  let parts :=
    append_if (contains (lit "meal plan") text || contains (lit "plan") text)
              meal_plan_fragment parts in
  parts ++ [closing].

Definition generate_nutrition_reply (user_text : str) : str :=
  let text := lower user_text in
  join (lit " ") (reply_parts text).

(** The goal detection as the specification words it: four keyword sets,
    each with its label, in their declaration order; the labels of the sets
    that match are collected in that order. *)
Definition goal_table : list (list str * str) :=
  [ (weight_loss_keys, lit "weight loss");
    (muscle_gain_keys, lit "muscle gain");
    (energy_keys, lit "energy");
    (gut_health_keys, lit "gut health") ].

Definition matched_labels (text : str) : list str :=
  map snd (filter (fun entry => any_in (fst entry) text) goal_table).

Definition recognized_goal_keywords : list str :=
  weight_loss_keys ++ muscle_gain_keys ++ energy_keys ++ gut_health_keys.

(** The reply when nothing matches. *)
Definition always_present_reply : str :=
  opening ++ lit " " ++ general_guidance ++ lit " " ++ closing.

(** Inputs the properties below are tried on. *)
Definition tired_lose_weight_input : str :=
  lit "I feel tired and want to lose weight".

Definition lose_weight_tired_muscle_input : str :=
  lit "I want to lose weight, I am tired, and I would like more muscle".

Definition plants_input : str := lit "plants are great".

Definition plain_input : str := lit "Hello there, how are you?".

(** * Documents *)

(** The values a stored document holds here: strings, and the identifier
    the store gives a document ([ObjectId]). *)
Inductive Value :=
| VStr (s : str)
| VOid (n : N).

Definition value_eqb (a b : Value) : bool :=
  match a, b with
  | VStr x, VStr y => str_eqb x y
  | VOid x, VOid y => N.eqb x y
  | _, _ => false
  end.

(** A Python [dict] with string keys, in insertion order. *)
Definition Document := list (str * Value).

Fixpoint dict_get (k : str) (d : Document) : option Value :=
  match d with
  | [] => None
  | (k', v) :: d' => if str_eqb k k' then Some v else dict_get k d'
  end.

(** [k in d] *)
Definition dict_has (k : str) (d : Document) : bool :=
  match dict_get k d with Some _ => true | None => false end.

(** [d.pop(k)], for a key that [d] holds: the dictionary without it. *)
Definition dict_del (k : str) (d : Document) : Document :=
  filter (fun kv => negb (str_eqb k (fst kv))) d.

(** [d[k] = v]: a key already there keeps its place, a new one goes last. *)
Fixpoint dict_set (k : str) (v : Value) (d : Document) : Document :=
  match d with
  | [] => [(k, v)]
  | (k', v') :: d' =>
      if str_eqb k k' then (k, v) :: d' else (k', v') :: dict_set k v d'
  end.

(** The last [k] hexadecimal digits of [n], most significant first. *)
Fixpoint hex_digits (k : nat) (n : N) : str :=
  match k with
  | O => []
  | S k' => hex_digits k' (n / 16) ++ [hexdigit (n mod 16)]
  end.

(** [str(v)]: an [ObjectId] prints as 24 hexadecimal digits. *)
Definition py_str (v : Value) : str :=
  match v with
  | VStr s => s
  | VOid n => hex_digits 24 n
  end.

(** * The document store *)

Module Store.

(** Modelled from the spec: the module [database] ([db], [create_document],
    [get_documents]) is not part of the sources at hand.  The store is a
    durable append-only log: every insert adds one document to a
    collection, documents are read back in insertion order, and the store
    gives each document an identifier of its own.  The log keeps each
    document with the name of its collection. *)
Definition Database := list (str * Document).

(** Modelled from the spec: one insert, atomic on its own; the stored
    document is the inserted one with the store's identifier under ["_id"].
    Returns the identifier as a string together with the new log. *)
Definition insert (coll : str) (data : Document) (d : Database)
  : str * Database :=
  let oid := VOid (N.of_nat (List.length d)) in
  (py_str oid, d ++ [(coll, data ++ [(lit "_id", oid)])]).

(** A document matches a filter when it holds every pair of the filter. *)
Definition matches (flt doc : Document) : bool :=
  forallb (fun kv =>
             match dict_get (fst kv) doc with
             | Some v => value_eqb v (snd kv)
             | None => false
             end) flt.

(** Modelled from the spec: the documents of a collection that match a
    filter, in insertion order. *)
Definition find (coll : str) (flt : Document) (d : Database)
  : list Document :=
  map snd (filter (fun cd => str_eqb (fst cd) coll && matches flt (snd cd)) d).

(** Modelled from the spec: "up to [limit] messages".  The spec leaves
    non-positive limits to the implementation; here they select nothing. *)
Definition take (limit : option Z) (docs : list Document) : list Document :=
  match limit with
  | None => docs
  | Some n => firstn (Z.to_nat n) docs
  end.

End Store.

(** * The world a request handler runs in *)

(** What a handler did to its collaborators, in order. *)
Inductive Call :=
| GenerateReply (user_text : str)
| CreateDocument (collection_name : str) (data : Document)
| GetDocuments (collection_name : str) (filter_dict : Document)
               (limit : option Z).

Record World := {
  (** the handle [db]: [None] when no store is available *)
  db : option Store.Database;
  (** the bytes [os.urandom] hands out, and how many it has handed out *)
  entropy : nat -> byte;
  drawn : nat;
  (** the instant [datetime.now(timezone.utc)] reads *)
  clock : Z;
  (** the calls made so far *)
  calls : list Call
}.

Definition set_db (w : World) (d : option Store.Database) : World :=
  {| db := d; entropy := entropy w; drawn := drawn w;
     clock := clock w; calls := calls w |}.

Definition set_drawn (w : World) (n : nat) : World :=
  {| db := db w; entropy := entropy w; drawn := n;
     clock := clock w; calls := calls w |}.

Definition log (w : World) (c : Call) : World :=
  {| db := db w; entropy := entropy w; drawn := drawn w;
     clock := clock w; calls := calls w ++ [c] |}.

(** What a handler can raise. *)
Inductive Exn :=
| HTTPException (status_code : Z) (detail : str)
| RequestValidationError
| TypeError.

(** The status of the response the framework makes of an exception. *)
Definition status_of (e : Exn) : Z :=
  match e with
  | HTTPException code _ => code
  | RequestValidationError => 422
  | TypeError => 500
  end.

Definition client_error (e : Exn) : Prop :=
  (400 <= status_of e < 500)%Z.

Inductive Outcome (A : Type) :=
| Returned (a : A)
| Raised (e : Exn).
Arguments Returned {A} a.
Arguments Raised {A} e.

(** A handler threads the world and either returns or raises; what it did
    to the world before raising stays done. *)
Definition Handler (A : Type) := World -> Outcome A * World.

Definition ret {A} (a : A) : Handler A := fun w => (Returned a, w).

Definition raise {A} (e : Exn) : Handler A := fun w => (Raised e, w).

Definition bind {A B} (m : Handler A) (k : A -> Handler B) : Handler B :=
  fun w =>
    match m w with
    | (Returned a, w') => k a w'
    | (Raised e, w') => (Raised e, w')
    end.

Declare Scope handler_scope.
Delimit Scope handler_scope with handler.
Notation "x <- m ;; k" := (bind m (fun x => k))
  (at level 100, m at next level, right associativity) : handler_scope.
Notation "m ;; k" := (bind m (fun _ => k))
  (at level 100, right associativity) : handler_scope.
Local Open Scope handler_scope.

(** [db is not None] *)
Definition db_is_not_None : Handler bool :=
  fun w => (Returned (match db w with Some _ => true | None => false end), w).

(** [os.urandom(n)] *)
Definition os_urandom (n : nat) : Handler (list byte) :=
  fun w => (Returned (map (entropy w) (seq (drawn w) n)),
            set_drawn w (drawn w + n)).

(** [datetime.now(timezone.utc)] *)
Definition datetime_now : Handler Z :=
  fun w => (Returned (clock w), w).

(** The call of the reply generator, which has no effect of its own. *)
Definition call_generate_nutrition_reply (user_text : str) : Handler str :=
  fun w => (Returned (generate_nutrition_reply user_text),
            log w (GenerateReply user_text)).

(** Modelled from the spec: [create_document] of the absent module
    [database] inserts one document.  Without a store there is nothing to
    insert into and the call fails; the handlers below reach it only
    behind their test of [db]. *)
Definition create_document (collection_name : str) (data : Document)
  : Handler str :=
  fun w =>
    let w := log w (CreateDocument collection_name data) in
    match db w with
    | Some d =>
        let (oid, d') := Store.insert collection_name data d in
        (Returned oid, set_db w (Some d'))
    | None => (Raised TypeError, w)
    end.

(** Modelled from the spec: [get_documents] of the absent module
    [database] reads up to [limit] matching documents in insertion
    order. *)
Definition get_documents (collection_name : str) (filter_dict : Document)
           (limit : option Z) : Handler (list Document) :=
  fun w =>
    let w := log w (GetDocuments collection_name filter_dict limit) in
    match db w with
    | Some d =>
        (Returned (Store.take limit (Store.find collection_name filter_dict d)), w)
    | None => (Raised TypeError, w)
    end.

(** * The chat handlers *)

Module ChatRequest.
Record t := {
  message : str;
  session_id : option str;
  context : option Document
}.

(** [message: str = Field(..., min_length=1)] *)
Definition valid (req : t) : bool := (1 <=? List.length (message req))%nat.
End ChatRequest.

Module ChatResponse.
Record t := {
  reply : str;
  session_id : str;
  timestamp : Z
}.
End ChatResponse.

(** [req.session_id or os.urandom(8).hex()]: the right operand is
    evaluated only when the left one is [None] or empty. *)
Definition session_id_or_minted (supplied : option str) : Handler str :=
  match supplied with
  | Some s =>
      if truthy s then ret s
      else (bs <- os_urandom 8 ;; ret (hex bs))
  | None => bs <- os_urandom 8 ;; ret (hex bs)
  end.

Definition message_document (session_id role content : str) : Document :=
  [ (lit "session_id", VStr session_id);
    (lit "role", VStr role);
    (lit "content", VStr content) ].

Definition chat (req : ChatRequest.t) : Handler ChatResponse.t :=
  if negb (truthy (strip (ChatRequest.message req))) then
    raise (HTTPException 400 (lit "Message cannot be empty"))
  else
    session_id <- session_id_or_minted (ChatRequest.session_id req) ;;
    reply <- call_generate_nutrition_reply (ChatRequest.message req) ;;
    available <- db_is_not_None ;;
    (if available : bool then
       create_document (lit "message")
         (message_document session_id (lit "user") (ChatRequest.message req)) ;;
       create_document (lit "message")
         (message_document session_id (lit "assistant") reply) ;;
       ret tt
     else ret tt) ;;
    now <- datetime_now ;;
    ret {| ChatResponse.reply := reply;
           ChatResponse.session_id := session_id;
           ChatResponse.timestamp := now |}.

(** [POST /api/chat]: the framework builds the [ChatRequest] from the body
    and answers 422 itself when a field constraint fails, before the
    handler runs. *)
Definition post_api_chat (req : ChatRequest.t) : Handler ChatResponse.t :=
  if ChatRequest.valid req then chat req
  else raise RequestValidationError.

(** The body of the loop of [get_messages]:
    [if "_id" in m: m["id"] = str(m.pop("_id"))]. *)
Definition surface_id (m : Document) : Document :=
  match dict_get (lit "_id") m with
  | Some oid => dict_set (lit "id") (VStr (py_str oid)) (dict_del (lit "_id") m)
  | None => m
  end.

(** [GET /api/messages] *)
Definition get_messages (session_id : str) (limit : Z)
  : Handler (list Document) :=
  available <- db_is_not_None ;;
  if negb available then ret []
  else
    msgs <- get_documents (lit "message")
              [(lit "session_id", VStr session_id)] (Some limit) ;;
    ret (map surface_id msgs).

(** * Notions the properties of the handlers are stated with *)

(** The log of a session: what the store holds under a session identifier,
    in insertion order. *)
Definition session_log (session_id : str) (d : Store.Database)
  : list Document :=
  Store.find (lit "message") [(lit "session_id", VStr session_id)] d.

(** The identifier a turn mints in world [w]: the next eight bytes of the
    random source, printed. *)
Definition minted_id (w : World) : str :=
  hex (map (entropy w) (seq (drawn w) 8)).

(** The session a turn belongs to: the identifier the caller supplied when
    there is a non-empty one, a minted one otherwise. *)
Definition turn_session_id (req : ChatRequest.t) (w : World) : str :=
  match ChatRequest.session_id req with
  | Some s => if truthy s then s else minted_id w
  | None => minted_id w
  end.

(** A document as the store keeps it. *)
Definition stored (data : Document) (oid : N) : Document :=
  data ++ [(lit "_id", VOid oid)].

(** A message is white space only, the empty message included. *)
Definition whitespace_only (s : str) : bool := forallb isspace s.

(** Worlds and requests the properties are tried on. *)
Definition sample_entropy (n : nat) : byte :=
  match Byte.of_nat ((n * 37 + 5) mod 256) with
  | Some b => b
  | None => x00
  end.

Definition world_with_store : World :=
  {| db := Some [(lit "message",
                  message_document (lit "abc") (lit "user") (lit "hi") ++
                  [(lit "_id", VOid 0)])];
     entropy := sample_entropy; drawn := 0; clock := 1730000000;
     calls := [] |}.

Definition world_without_store : World :=
  {| db := None; entropy := sample_entropy; drawn := 0;
     clock := 1730000000; calls := [] |}.

Definition request (message : str) (session_id : option str)
  : ChatRequest.t :=
  {| ChatRequest.message := message;
     ChatRequest.session_id := session_id;
     ChatRequest.context := None |}.

(** * Notions the further properties are stated with *)

(** [s.endswith(p)] *)
Definition endswith (p s : str) : bool := startswith (rev p) (rev s).

(** The parts of a reply as they depend on what the tests found: the goals
    detected and the three keyword tests. *)
Definition parts_for (goals : list str) (breakfast vegan plan : bool)
  : list str :=
  [opening] ++
  match goals with [] => [] | _ :: _ => [goal_fragment goals] end ++
  [general_guidance] ++
  (if breakfast then [breakfast_fragment] else []) ++
  (if vegan then [vegan_fragment] else []) ++
  (if plan then [meal_plan_fragment] else []) ++
  [closing].

(** The labels as they depend on which keyword sets match. *)
Definition labels_for (weight_loss muscle_gain energy gut_health : bool)
  : list str :=
  (if weight_loss then [lit "weight loss"] else []) ++
  (if muscle_gain then [lit "muscle gain"] else []) ++
  (if energy then [lit "energy"] else []) ++
  (if gut_health then [lit "gut health"] else []).

Definition breakfast_vegan_input : str :=
  lit "What should I eat for breakfast if I'm vegan?".

(** What a log reads like: the role and the content of each message. *)
Definition transcript (docs : list Document)
  : list (option Value * option Value) :=
  map (fun m => (dict_get (lit "role") m, dict_get (lit "content") m)) docs.

(** * The connectivity probe *)

(** The dictionary [response] of [test_database]: its six keys are fixed
    when it is built and only their values are assigned afterwards. *)
Module TestReport.
Record t := {
  backend : str;
  database : str;
  database_url : str;
  database_name : str;
  connection_status : str;
  collections : list str
}.

Definition set_database (r : t) (v : str) : t :=
  {| backend := backend r; database := v; database_url := database_url r;
     database_name := database_name r;
     connection_status := connection_status r;
     collections := collections r |}.

Definition set_collections (r : t) (v : list str) : t :=
  {| backend := backend r; database := database r;
     database_url := database_url r; database_name := database_name r;
     connection_status := connection_status r; collections := v |}.

Definition set_connection_status (r : t) (v : str) : t :=
  {| backend := backend r; database := database r;
     database_url := database_url r; database_name := database_name r;
     connection_status := v; collections := collections r |}.
End TestReport.

(** The marks of the source: U+2705, U+274C, and U+26A0 followed by
    U+FE0F. *)
Definition check_mark : str := [9989].
Definition cross_mark : str := [10060].
Definition warning_mark : str := [9888; 65039].

(** Truth value of [os.getenv(name)]: set, and not to the empty string. *)
Definition env_truthy (getenv : str -> option str) (name : str) : bool :=
  match getenv name with
  | Some v => truthy v
  | None => false
  end.

(** [GET /test].  The environment and the driver's
    [list_collection_names] are taken as given: the latter returns the
    names, or raises an exception of which [str(e)] is handed over. *)
Definition test_database (getenv : str -> option str)
           (list_collection_names : Store.Database -> str + list str)
  : Handler TestReport.t :=
  fun w =>
    let response :=
      {| TestReport.backend := check_mark ++ lit " Running";
         TestReport.database := cross_mark ++ lit " Not Available";
         TestReport.database_url :=
           if env_truthy getenv (lit "DATABASE_URL")
           then check_mark ++ lit " Set" else cross_mark ++ lit " Not Set";
         TestReport.database_name :=
           if env_truthy getenv (lit "DATABASE_NAME")
           then check_mark ++ lit " Set" else cross_mark ++ lit " Not Set";
         TestReport.connection_status := lit "Not Connected";
         TestReport.collections := [] |} in
    let response :=
      match db w with
      | Some d =>
          let response :=
            TestReport.set_database response (check_mark ++ lit " Available") in
          match list_collection_names d with
          | inr names =>
              let response := TestReport.set_collections response names in
              let response :=
                TestReport.set_connection_status response (lit "Connected") in
              TestReport.set_database response
                (check_mark ++ lit " Connected & Working")
          | inl e =>
              TestReport.set_database response
                (cross_mark ++ lit " Error: " ++ firstn 80 e)
          end
      | None =>
          TestReport.set_database response
            (warning_mark ++ lit " Available but not initialized")
      end in
    (Returned response, w).

(** An environment and two drivers the probe is tried on. *)
Definition sample_getenv (name : str) : option str :=
  if str_eqb name (lit "DATABASE_URL") then Some (lit "mongodb://localhost")
  else if str_eqb name (lit "DATABASE_NAME") then Some []
  else None.

Definition failing_driver (_ : Store.Database) : str + list str :=
  inl (lit "connection refused").

Definition working_driver (d : Store.Database) : str + list str :=
  inr (map fst d).

(** * The random source as a space of outcomes *)

(** The 256 bytes. *)
Definition all_bytes : list byte :=
  flat_map (fun n => match Byte.of_nat n with Some b => [b] | None => [] end)
           (seq 0 256).

(** All the byte strings of length [n]: what [os.urandom(n)] can return.
    A random source worth the name returns each of them as likely as any
    other. *)
Fixpoint all_draws (n : nat) : list (list byte) :=
  match n with
  | O => [[]]
  | S n' => map (fun p => fst p :: snd p) (list_prod all_bytes (all_draws n'))
  end.

(** The world [w] with a random source that hands out [bs] next. *)
Definition with_source (w : World) (bs : list byte) : World :=
  {| db := db w;
     entropy := fun n => nth (n - drawn w) bs x00;
     drawn := drawn w; clock := clock w; calls := calls w |}.

(** The session identifiers of two turns run one after the other. *)
Definition two_turn_ids (req1 req2 : ChatRequest.t) (w : World)
  : option (str * str) :=
  match (r1 <- post_api_chat req1 ;;
         r2 <- post_api_chat req2 ;;
         ret (ChatResponse.session_id r1, ChatResponse.session_id r2)) w with
  | (Returned ids, _) => Some ids
  | (Raised _, _) => None
  end.

(** Two turns get the same identifier when the source hands out [bs]. *)
Definition ids_clash (req1 req2 : ChatRequest.t) (w : World)
           (bs : list byte) : bool :=
  match two_turn_ids req1 req2 (with_source w bs) with
  | Some (a, b) => str_eqb a b
  | None => false
  end.

(** * The reply generator on Python objects *)

(** A second embedding of [generate_nutrition_reply], in which nothing is
    taken from the type hints: values are objects, every operation looks
    at what it is given and raises as Python does when the object is of
    the wrong kind, and the world is threaded through, so that an effect
    would show. *)
Module Dyn.

(** The objects the generator can meet: [None] and strings.  Python lists
    are lists of objects. *)
Inductive obj :=
| ONone
| OStr (s : str).

Inductive error :=
| AttributeError
| TypeError.

Definition M (A : Type) := World -> (error + A) * World.

Definition mret {A} (a : A) : M A := fun w => (inr a, w).

Definition mraise {A} (e : error) : M A := fun w => (inl e, w).

Definition mbind {A B} (m : M A) (k : A -> M B) : M B :=
  fun w =>
    match m w with
    | (inr a, w') => k a w'
    | (inl e, w') => (inl e, w')
    end.

Declare Scope dyn_scope.
Delimit Scope dyn_scope with dyn.
Notation "x <- m ;; k" := (mbind m (fun x => k))
  (at level 100, m at next level, right associativity) : dyn_scope.

(** [o.lower()]: [None] has no such method. *)
Definition method_lower (o : obj) : M obj :=
  match o with
  | OStr s => mret (OStr (lower s))
  | ONone => mraise AttributeError
  end.

(** [k in text]: a string is searched for a string; [None] is neither a
    thing to search in nor a thing to search a string for. *)
Definition op_in (k text : obj) : M bool :=
  match text, k with
  | OStr t, OStr k' => mret (contains k' t)
  | OStr _, ONone => mraise TypeError
  | ONone, _ => mraise TypeError
  end.

(** [any(k in text for k in keys)]: the tests run in order and stop at the
    first that holds. *)
Fixpoint builtin_any (keys : list obj) (text : obj) : M bool :=
  match keys with
  | [] => mret false
  | k :: rest =>
      mbind (op_in k text) (fun found =>
        if found : bool then mret true else builtin_any rest text)
  end.

(** [sep.join(items)]: every item must be a string. *)
Fixpoint joined (sep : str) (items : list obj) : error + str :=
  match items with
  | [] => inr []
  | [OStr p] => inr p
  | OStr p :: rest =>
      match joined sep rest with
      | inr r => inr (p ++ sep ++ r)
      | inl e => inl e
      end
  | ONone :: _ => inl TypeError
  end.

Definition method_join (sep : obj) (items : list obj) : M obj :=
  match sep with
  | OStr sp =>
      match joined sp items with
      | inr r => mret (OStr r)
      | inl e => mraise e
      end
  | ONone => mraise AttributeError
  end.

(** How an f-string prints a value. *)
Definition format (o : obj) : str :=
  match o with
  | OStr s => s
  | ONone => lit "None"
  end.

(** [if cond: xs.append(x)], for a list [xs]. *)
Definition list_append_if (cond : bool) (x : obj) (xs : list obj)
  : list obj :=
  if cond then xs ++ [x] else xs.

Local Open Scope dyn_scope.

Definition generate_nutrition_reply_on_objects (user_text : obj) : M obj :=
  text <- method_lower user_text ;;
  let goals := [] in
  found <- builtin_any [OStr (lit "weight loss"); OStr (lit "lose weight");
                        OStr (lit "fat loss")] text ;;
  let goals := list_append_if found (OStr (lit "weight loss")) goals in
  found <- builtin_any [OStr (lit "muscle"); OStr (lit "gain weight");
                        OStr (lit "bulk")] text ;;
  let goals := list_append_if found (OStr (lit "muscle gain")) goals in
  found <- builtin_any [OStr (lit "energy"); OStr (lit "tired");
                        OStr (lit "fatigue")] text ;;
  let goals := list_append_if found (OStr (lit "energy")) goals in
  found <- builtin_any [OStr (lit "ibs"); OStr (lit "gut");
                        OStr (lit "bloat")] text ;;
  let goals := list_append_if found (OStr (lit "gut health")) goals in
  let parts := [OStr opening] in
  parts <-
    match goals with
    | [] => mret parts
    | _ :: _ =>
        listed <- method_join (OStr (lit ", ")) goals ;;
        mret (parts ++
              [OStr (lit "I detect goals around " ++ format listed ++ lit ".")])
    end ;;
  let parts := parts ++ [OStr general_guidance] in
  found <- op_in (OStr (lit "breakfast")) text ;;
  let parts := list_append_if found (OStr breakfast_fragment) parts in
  found <- op_in (OStr (lit "vegan")) text ;;
  let parts := list_append_if found (OStr vegan_fragment) parts in
  found <-
    (meal_plan <- op_in (OStr (lit "meal plan")) text ;;
     if meal_plan : bool then mret true
     else op_in (OStr (lit "plan")) text) ;;
  let parts := list_append_if found (OStr meal_plan_fragment) parts in
  let parts := parts ++ [OStr closing] in
  method_join (OStr (lit " ")) parts.

End Dyn.

(** * Inputs that differ in the case of ASCII letters only *)

Definition ascii_lower_char (c : char) : char :=
  if (65 <=? c) && (c <=? 90) then c + 32 else c.

Definition ascii_lower (s : str) : str := map ascii_lower_char s.

(** * The chat handler over any insert *)




(** * Facts about the string operations *)

Section StringFacts.

Lemma startswith_app (p b : str) : startswith p (p ++ b) = true.
Proof.
  induction p as [|c p IH]; simpl; [reflexivity|].
  now rewrite N.eqb_refl, IH.
Qed.

Lemma startswith_inv (p s : str) :
  startswith p s = true -> exists b, s = p ++ b.
Proof.
  revert s; induction p as [|c p IH]; intros s H.
  - now exists s.
  - destruct s as [|c' s]; simpl in H; [discriminate|].
    apply andb_true_iff in H as [Hc Hp].
    apply N.eqb_eq in Hc; subst c'.
    destruct (IH _ Hp) as [b ->]. now exists b.
Qed.

Lemma contains_startswith (p s : str) :
  startswith p s = true -> contains p s = true.
Proof. intros H. destruct s; simpl; now rewrite H. Qed.

(** [needle in hay] holds exactly when [hay] splits around [needle]. *)
Lemma contains_spec (needle hay : str) :
  contains needle hay = true <-> exists a b, hay = a ++ needle ++ b.
Proof.
  split.
  - induction hay as [|c hay IH]; simpl; intros H.
    + rewrite orb_false_r in H. apply startswith_inv in H as [b Hb].
      now exists [], b.
    + apply orb_true_iff in H as [H|H].
      * apply startswith_inv in H as [b Hb]. now exists [], b.
      * destruct (IH H) as (a & b & ->). now exists (c :: a), b.
  - intros (a & b & ->).
    induction a as [|c a IH].
    + apply contains_startswith. exact (startswith_app needle b).
    + simpl. rewrite IH. apply orb_true_r.
Qed.

Lemma contains_trans (a b c : str) :
  contains a b = true -> contains b c = true -> contains a c = true.
Proof.
  rewrite !contains_spec.
  intros (x & y & ->) (u & v & ->).
  exists (u ++ x), (y ++ v). now rewrite <- !app_assoc.
Qed.

Lemma contains_suffix (a b s : str) :
  contains (a ++ b) s = true -> contains b s = true.
Proof.
  intros H. apply contains_trans with (b := a ++ b); [|exact H].
  apply contains_spec. exists a, []. now rewrite app_nil_r.
Qed.

Lemma join_In (sep p : str) (parts : list str) :
  In p parts -> exists a b, join sep parts = a ++ p ++ b.
Proof.
  induction parts as [|q parts IH]; [intros []|].
  intros [->|Hin].
  - destruct parts as [|r parts].
    + exists [], []. simpl. now rewrite app_nil_r.
    + exists [], (sep ++ join sep (r :: parts)). reflexivity.
  - destruct parts as [|r parts]; [destruct Hin|].
    destruct (IH Hin) as (a & b & E).
    exists (q ++ sep ++ a), b.
    change (join sep (q :: r :: parts)) with (q ++ sep ++ join sep (r :: parts)).
    rewrite E. now rewrite <- !app_assoc.
Qed.

(** A part of a joined string is a substring of it. *)
Lemma contains_join (sep p : str) (parts : list str) :
  In p parts -> contains p (join sep parts) = true.
Proof.
  intros H. apply contains_spec. now apply join_In.
Qed.

Lemma lower_app (a b : str) : lower (a ++ b) = lower a ++ lower b.
Proof. apply flat_map_app. Qed.

(** A substring that lowercasing leaves alone survives the lowercasing of
    the whole string. *)
Lemma contains_lower (k s : str) :
  lower k = k -> contains k s = true -> contains k (lower s) = true.
Proof.
  intros Hk H. apply contains_spec in H as (a & b & ->).
  apply contains_spec. exists (lower a), (lower b).
  now rewrite !lower_app, Hk.
Qed.

Lemma lstrip_nil (s : str) :
  lstrip s = [] <-> forallb isspace s = true.
Proof.
  induction s as [|c s IH]; simpl; [tauto|].
  destruct (isspace c); simpl; [exact IH|].
  split; discriminate.
Qed.

Lemma forallb_rev {A} (f : A -> bool) (l : list A) :
  forallb f (rev l) = forallb f l.
Proof.
  induction l as [|x l IH]; simpl; [reflexivity|].
  rewrite forallb_app, IH. simpl. rewrite andb_true_r. apply andb_comm.
Qed.

Lemma lstrip_head (s : str) :
  lstrip s = [] \/ exists c t, lstrip s = c :: t /\ isspace c = false.
Proof.
  induction s as [|c s IH]; simpl; [now left|].
  destruct (isspace c) eqn:E; [exact IH|].
  right. now exists c, s.
Qed.

(** [s.strip()] is empty exactly when [s] is made of white space only, the
    empty string included. *)
Lemma strip_nil (s : str) :
  strip s = [] <-> forallb isspace s = true.
Proof.
  unfold strip, rstrip. split.
  - intros H.
    apply (f_equal (@rev char)) in H. rewrite rev_involutive in H. simpl in H.
    apply lstrip_nil in H. rewrite forallb_rev in H.
    destruct (lstrip_head s) as [E|(c & t & E & Hc)].
    + now apply lstrip_nil.
    + rewrite E in H. simpl in H. rewrite Hc in H. discriminate.
  - intros H. apply lstrip_nil in H. now rewrite H.
Qed.

Lemma truthy_strip (s : str) :
  truthy (strip s) = negb (forallb isspace s).
Proof.
  destruct (forallb isspace s) eqn:E.
  - apply strip_nil in E. now rewrite E.
  - destruct (strip s) eqn:S; [|reflexivity].
    apply strip_nil in S. congruence.
Qed.

End StringFacts.

(** * Facts about [bytes.hex] *)

Section HexFacts.

Lemma unhex_hex_byte (b : byte) (s : str) :
  unhex (hex_byte b ++ s) = Some b :: unhex s.
Proof. destruct b; reflexivity. Qed.

Lemma hex_cons (b : byte) (bs : list byte) :
  hex (b :: bs) = hex_byte b ++ hex bs.
Proof. reflexivity. Qed.

Lemma unhex_hex (bs : list byte) : unhex (hex bs) = map Some bs.
Proof.
  induction bs as [|b bs IH]; [reflexivity|].
  now rewrite hex_cons, unhex_hex_byte, IH.
Qed.

(** Different byte strings print differently. *)
Lemma hex_inj (bs bs' : list byte) : hex bs = hex bs' -> bs = bs'.
Proof.
  intros H. apply (f_equal unhex) in H. rewrite !unhex_hex in H.
  revert bs' H. induction bs as [|b bs IH]; intros [|b' bs'] H;
    simpl in H; try discriminate; [reflexivity|].
  injection H as -> H. f_equal. now apply IH.
Qed.

Lemma hex_length (bs : list byte) :
  List.length (hex bs) = (2 * List.length bs)%nat.
Proof.
  induction bs as [|b bs IH]; [reflexivity|].
  rewrite hex_cons, length_app, IH. simpl. lia.
Qed.

Lemma hex_byte_digits (b : byte) : forallb is_hexdigit (hex_byte b) = true.
Proof. destruct b; reflexivity. Qed.

Lemma hex_digits_only (bs : list byte) : forallb is_hexdigit (hex bs) = true.
Proof.
  induction bs as [|b bs IH]; [reflexivity|].
  now rewrite hex_cons, forallb_app, hex_byte_digits, IH.
Qed.

End HexFacts.

(** * The reply generator: composition of the reply *)

Section ReplyFacts.

Lemma In_append_if {A} (c : bool) (x y : A) (xs : list A) :
  In x xs -> In x (append_if c y xs).
Proof.
  intros H. destruct c; simpl; [|exact H].
  apply in_or_app. now left.
Qed.

Lemma In_append_if_true {A} (x : A) (xs : list A) :
  In x (append_if true x xs).
Proof. simpl. apply in_or_app. right. now left. Qed.

(** The source's chain of tests collects the labels the way the table of
    the specification does. *)
Lemma detect_goals_matched (text : str) :
  detect_goals text = matched_labels text.
Proof.
  unfold detect_goals.
  cbv beta iota delta [matched_labels goal_table filter fst].
  destruct (any_in weight_loss_keys text), (any_in muscle_gain_keys text),
    (any_in energy_keys text), (any_in gut_health_keys text); reflexivity.
Qed.

(** When a goal was detected, its sentence is one of the parts. *)
Lemma goal_fragment_in_parts (text : str) :
  detect_goals text <> [] ->
  In (goal_fragment (detect_goals text)) (reply_parts text).
Proof.
  intros H. unfold reply_parts.
  destruct (detect_goals text) as [|g gs]; [congruence|].
  apply in_or_app. left.
  do 3 apply In_append_if.
  apply in_or_app. left. apply in_or_app. right. now left.
Qed.

Lemma meal_plan_in_parts (text : str) :
  contains (lit "plan") text = true ->
  In meal_plan_fragment (reply_parts text).
Proof.
  intros H. unfold reply_parts. rewrite H, orb_true_r.
  apply in_or_app. left. apply In_append_if_true.
Qed.

Lemma any_in_false (keys : list str) (text : str) :
  (forall k, In k keys -> contains k text = false) ->
  any_in keys text = false.
Proof.
  intros H. unfold any_in.
  induction keys as [|k keys IH]; [reflexivity|].
  simpl. rewrite (H k (or_introl eq_refl)). apply IH.
  intros k' Hk'. apply H. now right.
Qed.

Lemma any_in_true (keys : list str) (k text : str) :
  In k keys -> contains k text = true -> any_in keys text = true.
Proof.
  intros Hin Hk. apply existsb_exists. now exists k.
Qed.

Lemma detect_goals_none (text : str) :
  (forall k, In k recognized_goal_keywords -> contains k text = false) ->
  detect_goals text = [].
Proof.
  intros H. unfold detect_goals.
  rewrite !any_in_false; [reflexivity| | | |];
    intros k Hk; apply H; unfold recognized_goal_keywords;
    rewrite !in_app_iff; tauto.
Qed.

End ReplyFacts.

(** * Properties of the reply generator *)

Section GeneratorProperties.

Lemma lose_weight_matches (s : str) :
  contains (lit "lose weight") s = true ->
  any_in weight_loss_keys (lower s) = true.
Proof.
  intros H. apply any_in_true with (k := lit "lose weight").
  - simpl. tauto.
  - now apply contains_lower.
Qed.

Lemma tired_matches (s : str) :
  contains (lit "tired") s = true ->
  any_in energy_keys (lower s) = true.
Proof.
  intros H. apply any_in_true with (k := lit "tired").
  - simpl. tauto.
  - now apply contains_lower.
Qed.

(** C1, as the code has it.  For every input the goals detected are the
    labels of all the keyword sets that match, in the declaration order
    weight loss, muscle gain, energy, gut health, whatever the order of the
    keywords in the input, and their comma-joined list is the goal sentence
    of the reply.  An input containing both "lose weight" and "tired" gets
    "weight loss" first and "energy" after it, with "muscle gain" between
    the two exactly when a muscle-gain keyword matches as well; when none
    does, the goal sentence lists "weight loss, energy". *)
Theorem goals_listed_in_declaration_order (s : str) :
  detect_goals (lower s) = matched_labels (lower s) /\
  (matched_labels (lower s) <> [] ->
   In (lit "I detect goals around " ++
       join (lit ", ") (matched_labels (lower s)) ++ lit ".")
      (reply_parts (lower s))) /\
  (contains (lit "lose weight") s = true ->
   contains (lit "tired") s = true ->
   detect_goals (lower s) =
     [lit "weight loss"] ++
     (if any_in muscle_gain_keys (lower s) then [lit "muscle gain"] else []) ++
     [lit "energy"] ++
     (if any_in gut_health_keys (lower s) then [lit "gut health"] else [])) /\
  (contains (lit "lose weight") s = true ->
   contains (lit "tired") s = true ->
   any_in muscle_gain_keys (lower s) = false ->
   contains (lit "weight loss, energy")
            (goal_fragment (detect_goals (lower s))) = true /\
   contains (goal_fragment (detect_goals (lower s)))
            (generate_nutrition_reply s) = true).
Proof.
  assert (Hboth : contains (lit "lose weight") s = true ->
                  contains (lit "tired") s = true ->
                  detect_goals (lower s) =
                    [lit "weight loss"] ++
                    (if any_in muscle_gain_keys (lower s)
                     then [lit "muscle gain"] else []) ++
                    [lit "energy"] ++
                    (if any_in gut_health_keys (lower s)
                     then [lit "gut health"] else [])).
  { intros Hw Ht. unfold detect_goals.
    rewrite (lose_weight_matches s Hw), (tired_matches s Ht).
    destruct (any_in muscle_gain_keys (lower s)),
      (any_in gut_health_keys (lower s)); reflexivity. }
  split; [apply detect_goals_matched|].
  split.
  { intros Hne. rewrite <- detect_goals_matched in *.
    now apply goal_fragment_in_parts. }
  split; [exact Hboth|].
  intros Hw Ht Hm. specialize (Hboth Hw Ht). rewrite Hm in Hboth.
  split.
  - rewrite Hboth.
    destruct (any_in gut_health_keys (lower s)); vm_compute; reflexivity.
  - apply contains_join, goal_fragment_in_parts.
    rewrite Hboth. discriminate.
Qed.

Lemma goals_listed_in_declaration_order_witness :
  contains (lit "lose weight") tired_lose_weight_input = true /\
  contains (lit "tired") tired_lose_weight_input = true /\
  any_in muscle_gain_keys (lower tired_lose_weight_input) = false /\
  contains (lit "weight loss, energy")
           (goal_fragment (detect_goals (lower tired_lose_weight_input))) = true.
Proof.
  split; [reflexivity|]. split; [reflexivity|]. split; [reflexivity|].
  apply (goals_listed_in_declaration_order tired_lose_weight_input);
    reflexivity.
Defined.

(** C1 as stated fails: this input contains "lose weight" and "tired", and
    its goal sentence reads "weight loss, muscle gain, energy"; the text
    "weight loss, energy" occurs nowhere in the reply. *)
Lemma lose_weight_tired_not_adjacent :
  contains (lit "lose weight") lose_weight_tired_muscle_input = true /\
  contains (lit "tired") lose_weight_tired_muscle_input = true /\
  goal_fragment (detect_goals (lower lose_weight_tired_muscle_input)) =
    lit "I detect goals around weight loss, muscle gain, energy." /\
  contains (lit "weight loss, energy")
           (generate_nutrition_reply lose_weight_tired_muscle_input) = false.
Proof. repeat split; vm_compute; reflexivity. Qed.

(** C2.  An input whose lowercased form contains none of the goal keywords
    and none of "breakfast", "vegan", "plan" gets exactly the opening, the
    general guidance and the closing, in this order, joined by single
    spaces, and nothing else.  This holds of every input, the non-empty
    ones in particular. *)
Theorem reply_without_keywords (s : str) :
  (forall k, In k recognized_goal_keywords -> contains k (lower s) = false) ->
  contains (lit "breakfast") (lower s) = false ->
  contains (lit "vegan") (lower s) = false ->
  contains (lit "plan") (lower s) = false ->
  reply_parts (lower s) = [opening; general_guidance; closing] /\
  generate_nutrition_reply s =
    opening ++ lit " " ++ general_guidance ++ lit " " ++ closing.
Proof.
  intros Hg Hb Hv Hp.
  assert (Hmp : contains (lit "meal plan") (lower s) = false).
  { destruct (contains (lit "meal plan") (lower s)) eqn:E; [|reflexivity].
    change (lit "meal plan") with (lit "meal " ++ lit "plan") in E.
    apply contains_suffix in E. congruence. }
  assert (Hparts : reply_parts (lower s) = [opening; general_guidance; closing]).
  { unfold reply_parts. rewrite (detect_goals_none _ Hg), Hb, Hv, Hp, Hmp.
    reflexivity. }
  split; [exact Hparts|].
  unfold generate_nutrition_reply. rewrite Hparts. reflexivity.
Qed.

Lemma reply_without_keywords_witness :
  plain_input <> [] /\
  generate_nutrition_reply plain_input =
    opening ++ lit " " ++ general_guidance ++ lit " " ++ closing.
Proof.
  split; [discriminate|].
  apply (reply_without_keywords plain_input); try reflexivity.
  intros k Hk.
  repeat (destruct Hk as [<-|Hk]; [reflexivity|]).
  destruct Hk.
Defined.

(** C8.  Whenever the lowercased input contains "plan", inside a longer
    word or not, the meal-plan offer is one of the parts of the reply and
    so occurs in it; "plants are great" is such an input. *)
Theorem plan_substring_offers_meal_plan :
  (forall s : str,
      contains (lit "plan") (lower s) = true ->
      In meal_plan_fragment (reply_parts (lower s)) /\
      contains meal_plan_fragment (generate_nutrition_reply s) = true) /\
  contains (lit "plan") (lower plants_input) = true /\
  generate_nutrition_reply plants_input =
    join (lit " ") [opening; general_guidance; meal_plan_fragment; closing].
Proof.
  split; [|split; reflexivity].
  intros s H. split.
  - now apply meal_plan_in_parts.
  - now apply contains_join, meal_plan_in_parts.
Qed.

Lemma plan_substring_offers_meal_plan_witness :
  contains (lit "plan") (lower plants_input) = true /\
  contains meal_plan_fragment (generate_nutrition_reply plants_input) = true.
Proof.
  split; [reflexivity|].
  apply (proj1 plan_substring_offers_meal_plan plants_input). reflexivity.
Defined.

End GeneratorProperties.

(** * Properties of the chat handlers *)

Section HandlerProperties.

Lemma str_eqb_eq (a b : str) : str_eqb a b = true <-> a = b.
Proof.
  unfold str_eqb. destruct (list_eq_dec N.eq_dec a b); split;
    congruence.
Qed.

Lemma str_eqb_refl (a : str) : str_eqb a a = true.
Proof. now apply str_eqb_eq. Qed.

Lemma str_eqb_neq (a b : str) : a <> b -> str_eqb a b = false.
Proof.
  intros H. destruct (str_eqb a b) eqn:E; [|reflexivity].
  apply str_eqb_eq in E. contradiction.
Qed.

Lemma blank_strip_falsy (s : str) :
  whitespace_only s = true -> truthy (strip s) = false.
Proof. intros H. rewrite truthy_strip. unfold whitespace_only in H. now rewrite H. Qed.

Lemma not_whitespace_only_nonempty (s : str) :
  whitespace_only s = false -> (1 <=? List.length s)%nat = true.
Proof. destruct s; [discriminate|reflexivity]. Qed.

Lemma chat_raises_on_blank (req : ChatRequest.t) (w : World) :
  whitespace_only (ChatRequest.message req) = true ->
  chat req w = (Raised (HTTPException 400 (lit "Message cannot be empty")), w).
Proof.
  intros H. unfold chat.
  now rewrite (blank_strip_falsy _ H).
Qed.

(** C5.  A request whose message is empty or white space only fails with a
    client error: the framework answers 422 for the empty message, the
    handler raises 400 for the others, and the handler itself raises 400 on
    both.  The world is left exactly as it was: no call of the reply
    generator is logged and nothing is stored. *)
Theorem blank_message_rejected (req : ChatRequest.t) (w : World) :
  whitespace_only (ChatRequest.message req) = true ->
  (exists e : Exn,
      post_api_chat req w = (Raised e, w) /\ client_error e /\
      e = (if ChatRequest.valid req
           then HTTPException 400 (lit "Message cannot be empty")
           else RequestValidationError)) /\
  chat req w = (Raised (HTTPException 400 (lit "Message cannot be empty")), w).
Proof.
  intros H.
  pose proof (chat_raises_on_blank req w H) as Hchat.
  split; [|exact Hchat].
  unfold post_api_chat.
  destruct (ChatRequest.valid req).
  - eexists. split; [exact Hchat|]. split; [|reflexivity].
    unfold client_error; simpl; lia.
  - eexists. split; [reflexivity|]. split; [|reflexivity].
    unfold client_error; simpl; lia.
Qed.

Lemma blank_message_rejected_witness :
  whitespace_only (lit "   ") = true /\
  chat (request (lit "   ") None) world_with_store =
    (Raised (HTTPException 400 (lit "Message cannot be empty")),
     world_with_store).
Proof.
  split; [reflexivity|].
  apply (blank_message_rejected (request (lit "   ") None) world_with_store).
  reflexivity.
Defined.

(** What a turn that passes the test of its message does, in full. *)
Lemma chat_returns (req : ChatRequest.t) (w : World) :
  whitespace_only (ChatRequest.message req) = false ->
  let msg := ChatRequest.message req in
  let sid := turn_session_id req w in
  let rep := generate_nutrition_reply msg in
  exists w' : World,
    chat req w =
      (Returned {| ChatResponse.reply := rep;
                   ChatResponse.session_id := sid;
                   ChatResponse.timestamp := clock w |}, w') /\
    db w' =
      match db w with
      | Some d =>
          Some (d ++
                [ (lit "message",
                   stored (message_document sid (lit "user") msg)
                          (N.of_nat (List.length d)));
                  (lit "message",
                   stored (message_document sid (lit "assistant") rep)
                          (N.of_nat (List.length (d ++
                             [(lit "message",
                               stored (message_document sid (lit "user") msg)
                                      (N.of_nat (List.length d)))])))) ])
      | None => None
      end /\
    calls w' =
      calls w ++ GenerateReply msg ::
      match db w with
      | Some _ =>
          [ CreateDocument (lit "message")
              (message_document sid (lit "user") msg);
            CreateDocument (lit "message")
              (message_document sid (lit "assistant") rep) ]
      | None => []
      end /\
    entropy w' = entropy w /\ clock w' = clock w /\
    drawn w' =
      match ChatRequest.session_id req with
      | Some s => if truthy s then drawn w else (drawn w + 8)%nat
      | None => (drawn w + 8)%nat
      end.
Proof.
  intros H msg sid rep. subst msg sid rep.
  unfold chat, turn_session_id, session_id_or_minted. rewrite truthy_strip.
  unfold whitespace_only in H. rewrite H. cbn [negb].
  destruct req as [msg supplied ctx]. cbn [ChatRequest.message ChatRequest.session_id] in *.
  destruct w as [d ent n clk cs].
  destruct supplied as [s|]; [destruct (truthy s) eqn:Hs|]; destruct d as [d|];
    (eexists; split; [reflexivity|]);
    cbn [db calls entropy clock drawn set_db set_drawn log];
    rewrite <- ?app_assoc; repeat split.
Qed.

Lemma post_api_chat_not_blank (req : ChatRequest.t) (w : World) :
  whitespace_only (ChatRequest.message req) = false ->
  post_api_chat req w = chat req w.
Proof.
  intros H. unfold post_api_chat, ChatRequest.valid.
  now rewrite (not_whitespace_only_nonempty _ H).
Qed.

(** A turn that returns had a message that is not blank, and went through
    the handler. *)
Lemma returned_not_blank (req : ChatRequest.t) (w w' : World)
      (resp : ChatResponse.t) :
  post_api_chat req w = (Returned resp, w') ->
  whitespace_only (ChatRequest.message req) = false /\
  chat req w = (Returned resp, w').
Proof.
  intros H.
  destruct (whitespace_only (ChatRequest.message req)) eqn:E.
  - unfold post_api_chat in H.
    destruct (ChatRequest.valid req); [|discriminate].
    rewrite (chat_raises_on_blank req w E) in H. discriminate.
  - split; [reflexivity|]. now rewrite <- (post_api_chat_not_blank req w E).
Qed.

Lemma minted_id_length (w : World) : List.length (minted_id w) = 16%nat.
Proof.
  unfold minted_id. now rewrite hex_length, length_map, length_seq.
Qed.

Lemma minted_id_nonempty (w : World) : minted_id w <> [].
Proof.
  intros E. pose proof (minted_id_length w) as L. rewrite E in L. discriminate.
Qed.

Lemma truthy_nonempty (s : str) : truthy s = true -> s <> [].
Proof. destruct s; [discriminate|]. intros _. discriminate. Qed.

Lemma turn_session_id_nonempty (req : ChatRequest.t) (w : World) :
  turn_session_id req w <> [].
Proof.
  unfold turn_session_id.
  destruct (ChatRequest.session_id req) as [s|];
    [destruct (truthy s) eqn:E|]; auto using minted_id_nonempty, truthy_nonempty.
Qed.

Lemma find_app (coll : str) (flt : Document) (d l : Store.Database) :
  Store.find coll flt (d ++ l) = Store.find coll flt d ++ Store.find coll flt l.
Proof. unfold Store.find. now rewrite filter_app, map_app. Qed.

Lemma message_document_fields (sid role content : str) (oid : N) :
  let m := stored (message_document sid role content) oid in
  dict_get (lit "session_id") m = Some (VStr sid) /\
  dict_get (lit "role") m = Some (VStr role) /\
  dict_get (lit "content") m = Some (VStr content).
Proof. repeat split. Qed.

(** The log of a session after the two inserts of a turn: the two messages
    come last in the log of the turn's session, and the other logs are as
    before. *)
Lemma session_log_after_turn (d : Store.Database) (sid other : str)
      (c1 c2 r1 r2 : str) (n m : N) :
  session_log other
    (d ++ [ (lit "message", stored (message_document sid r1 c1) n);
            (lit "message", stored (message_document sid r2 c2) m) ]) =
  session_log other d ++
  (if str_eqb sid other
   then [ stored (message_document sid r1 c1) n;
          stored (message_document sid r2 c2) m ]
   else []).
Proof.
  unfold session_log. rewrite find_app. f_equal.
  unfold Store.find. cbn [filter fst snd].
  rewrite str_eqb_refl. cbn [andb].
  unfold Store.matches. cbn [forallb fst snd].
  destruct (message_document_fields sid r1 c1 n) as [-> _].
  destruct (message_document_fields sid r2 c2 m) as [-> _].
  cbn [value_eqb]. rewrite andb_true_r.
  destruct (str_eqb sid other); reflexivity.
Qed.

(** C3.  A turn that succeeds while the store is available adds exactly two
    documents to the store, both in the log of the turn's session: first
    the message of role "user" whose content is the caller's message, then
    the message of role "assistant" whose content is the generated reply.
    The log of every other session is as before.

    The effect of an insert on the store is modelled from the
    specification. *)
Theorem successful_turn_appends_user_then_assistant
        (req : ChatRequest.t) (w w' : World) (d : Store.Database)
        (resp : ChatResponse.t) :
  db w = Some d ->
  post_api_chat req w = (Returned resp, w') ->
  let sid := ChatResponse.session_id resp in
  exists (user_message assistant_message : Document) (d' : Store.Database),
    db w' = Some d' /\
    d' = d ++ [ (lit "message", user_message);
                (lit "message", assistant_message) ] /\
    session_log sid d' = session_log sid d ++ [user_message; assistant_message] /\
    dict_get (lit "session_id") user_message = Some (VStr sid) /\
    dict_get (lit "role") user_message = Some (VStr (lit "user")) /\
    dict_get (lit "content") user_message =
      Some (VStr (ChatRequest.message req)) /\
    dict_get (lit "session_id") assistant_message = Some (VStr sid) /\
    dict_get (lit "role") assistant_message = Some (VStr (lit "assistant")) /\
    dict_get (lit "content") assistant_message =
      Some (VStr (ChatResponse.reply resp)) /\
    ChatResponse.reply resp =
      generate_nutrition_reply (ChatRequest.message req) /\
    calls w' =
      calls w ++
      [ GenerateReply (ChatRequest.message req);
        CreateDocument (lit "message")
          (message_document sid (lit "user") (ChatRequest.message req));
        CreateDocument (lit "message")
          (message_document sid (lit "assistant") (ChatResponse.reply resp)) ] /\
    (forall other : str,
        other <> sid -> session_log other d' = session_log other d).
Proof.
  intros Hdb Hrun sid.
  destruct (returned_not_blank req w w' resp Hrun) as [Hmsg Hchat].
  destruct (chat_returns req w Hmsg) as (w1 & Hrun1 & Hdb1 & Hcalls & _).
  rewrite Hchat in Hrun1. injection Hrun1 as Hresp Hw. subst w1.
  rewrite Hdb in Hdb1, Hcalls.
  assert (Hsid : sid = turn_session_id req w) by (subst sid resp; reflexivity).
  assert (Hrep : ChatResponse.reply resp =
                 generate_nutrition_reply (ChatRequest.message req))
    by (subst resp; reflexivity).
  rewrite Hrep, Hsid.
  eexists _, _, _.
  split; [exact Hdb1|]. split; [reflexivity|].
  split.
  { rewrite session_log_after_turn, str_eqb_refl. reflexivity. }
  do 7 (split; [reflexivity|]).
  split; [exact Hcalls|].
  intros other Hother.
  rewrite session_log_after_turn, str_eqb_neq by congruence.
  apply app_nil_r.
Qed.

Lemma successful_turn_appends_user_then_assistant_witness :
  exists (resp : ChatResponse.t) (w' : World) (d' : Store.Database),
    post_api_chat (request (lit "I am tired") (Some (lit "abc")))
                  world_with_store = (Returned resp, w') /\
    db w' = Some d' /\
    List.length (session_log (lit "abc") d') = 3%nat.
Proof.
  destruct (successful_turn_appends_user_then_assistant
              (request (lit "I am tired") (Some (lit "abc")))
              world_with_store
              (snd (post_api_chat (request (lit "I am tired") (Some (lit "abc")))
                                  world_with_store))
              [(lit "message",
                message_document (lit "abc") (lit "user") (lit "hi") ++
                [(lit "_id", VOid 0)])]
              {| ChatResponse.reply := generate_nutrition_reply (lit "I am tired");
                 ChatResponse.session_id := lit "abc";
                 ChatResponse.timestamp := 1730000000 |}
              eq_refl eq_refl)
    as (u & a & d' & Hdb & _ & Hlog & _).
  eexists _, _, d'. split; [reflexivity|]. split; [exact Hdb|].
  cbn [ChatResponse.session_id] in Hlog. rewrite Hlog. reflexivity.
Defined.

(** C4.  With no store, a request whose message is not blank still gets a
    response: the generated reply and a non-empty session identifier.  The
    handler returns rather than raises, makes no insert, and the store
    stays absent. *)
Theorem turn_without_store (req : ChatRequest.t) (w : World) :
  whitespace_only (ChatRequest.message req) = false ->
  db w = None ->
  exists (resp : ChatResponse.t) (w' : World),
    post_api_chat req w = (Returned resp, w') /\
    ChatResponse.reply resp =
      generate_nutrition_reply (ChatRequest.message req) /\
    ChatResponse.session_id resp = turn_session_id req w /\
    ChatResponse.session_id resp <> [] /\
    db w' = None /\
    calls w' = calls w ++ [GenerateReply (ChatRequest.message req)].
Proof.
  intros Hmsg Hdb.
  destruct (chat_returns req w Hmsg) as (w' & Hrun & Hdb' & Hcalls & _).
  rewrite Hdb in Hdb', Hcalls.
  eexists _, w'. rewrite (post_api_chat_not_blank req w Hmsg).
  split; [exact Hrun|]. cbn [ChatResponse.reply ChatResponse.session_id].
  repeat split; auto using turn_session_id_nonempty.
Qed.

Lemma turn_without_store_witness :
  exists (resp : ChatResponse.t) (w' : World),
    post_api_chat (request (lit "I am tired") None) world_without_store =
      (Returned resp, w') /\
    ChatResponse.session_id resp = lit "052a4f7499bee308" /\
    db w' = None.
Proof.
  destruct (turn_without_store (request (lit "I am tired") None)
                               world_without_store eq_refl eq_refl)
    as (resp & w' & Hrun & _ & Hsid & _ & Hdb & _).
  exists resp, w'. split; [exact Hrun|]. split; [|exact Hdb].
  rewrite Hsid. reflexivity.
Defined.

Lemma all_bytes_complete (b : byte) : In b all_bytes.
Proof.
  unfold all_bytes. apply in_flat_map. exists (Byte.to_nat b). split.
  - apply in_seq. pose proof (Byte.to_nat_bounded b). lia.
  - rewrite Byte.of_to_nat. now left.
Qed.

Lemma all_bytes_NoDup : NoDup all_bytes.
Proof.
  apply (NoDup_map_inv Byte.to_nat).
  replace (map Byte.to_nat all_bytes) with (seq 0 256)
    by (vm_compute; reflexivity).
  apply seq_NoDup.
Qed.

Lemma all_bytes_length : List.length all_bytes = 256%nat.
Proof. vm_compute. reflexivity. Qed.

Lemma NoDup_list_prod {A B} (l : list A) (l' : list B) :
  NoDup l -> NoDup l' -> NoDup (list_prod l l').
Proof.
  intros Hl Hl'. induction Hl as [|a l Ha Hl IH]; [constructor|].
  cbn [list_prod]. apply NoDup_app.
  - apply NoDup_map_NoDup_ForallPairs; [|exact Hl'].
    intros x y _ _ E. now injection E.
  - exact IH.
  - intros [x y] H1 H2. apply in_map_iff in H1 as (y' & E & _).
    injection E as <- <-. apply in_prod_iff in H2 as [H2 _]. contradiction.
Qed.

Lemma In_all_draws (n : nat) (bs : list byte) :
  In bs (all_draws n) <-> List.length bs = n.
Proof.
  revert bs. induction n as [|n IH]; intros bs; cbn [all_draws].
  - split.
    + intros [<-|[]]. reflexivity.
    + destruct bs; [now left|discriminate].
  - rewrite in_map_iff. split.
    + intros ([b r] & <- & H). apply in_prod_iff in H as [_ H].
      apply IH in H. cbn. now rewrite H.
    + destruct bs as [|b r]; [discriminate|]. intros H.
      exists (b, r). split; [reflexivity|].
      apply in_prod_iff. split; [apply all_bytes_complete|].
      apply IH. now injection H.
Qed.

Lemma NoDup_all_draws (n : nat) : NoDup (all_draws n).
Proof.
  induction n as [|n IH]; cbn [all_draws].
  - constructor; [intros []|constructor].
  - apply NoDup_map_NoDup_ForallPairs.
    + intros [b r] [b' r'] _ _ E. cbn in E. now injection E as -> ->.
    + apply NoDup_list_prod; [apply all_bytes_NoDup|exact IH].
Qed.

Lemma length_all_draws (n : nat) :
  List.length (all_draws n) = (256 ^ n)%nat.
Proof.
  induction n as [|n IH]; [reflexivity|].
  cbn [all_draws]. rewrite length_map, length_prod, IH, all_bytes_length.
  symmetry. apply Nat.pow_succ_r'.
Qed.

Lemma count_all_draws (n : nat) :
  N.of_nat (List.length (all_draws n)) = (256 ^ N.of_nat n)%N.
Proof.
  rewrite length_all_draws, Nat2N.inj_pow. reflexivity.
Qed.

(** Among the strings of length [2 * n], those whose two halves are equal
    are as many as the strings of length [n]. *)
Lemma equal_halves_count (n : nat) (p : list byte -> bool) :
  (forall bs, List.length bs = (n + n)%nat ->
              (p bs = true <-> firstn n bs = skipn n bs)) ->
  List.length (filter p (all_draws (n + n))) = List.length (all_draws n).
Proof.
  intros Hp.
  rewrite <- (length_map (fun d => d ++ d) (all_draws n)).
  apply Permutation_length, NoDup_Permutation.
  - apply NoDup_filter, NoDup_all_draws.
  - apply NoDup_map_NoDup_ForallPairs; [|apply NoDup_all_draws].
    intros d d' Hd Hd' E. apply In_all_draws in Hd, Hd'.
    apply (f_equal (firstn n)) in E.
    rewrite !firstn_app in E.
    rewrite Hd, Hd', Nat.sub_diag in E. cbn [firstn] in E.
    rewrite !app_nil_r in E.
    rewrite <- Hd in E at 1. rewrite <- Hd' in E. now rewrite !firstn_all in E.
  - intros bs. rewrite filter_In, In_all_draws, in_map_iff. split.
    + intros [Hlen H]. apply (Hp bs Hlen) in H.
      exists (firstn n bs). split.
      * rewrite H at 2. apply firstn_skipn.
      * apply In_all_draws. rewrite length_firstn. lia.
    + intros (d & <- & Hd). apply In_all_draws in Hd.
      assert (Hlen : List.length (d ++ d) = (n + n)%nat)
        by (rewrite length_app; lia).
      split; [exact Hlen|]. apply (Hp _ Hlen).
      rewrite firstn_app, skipn_app, Hd, Nat.sub_diag.
      cbn [firstn skipn]. rewrite app_nil_r.
      rewrite <- Hd. now rewrite firstn_all, skipn_all.
Qed.

Lemma skipn_nth_cons {A} (d : A) (l : list A) (k : nat) :
  (k < List.length l)%nat -> skipn k l = nth k l d :: skipn (S k) l.
Proof.
  revert k. induction l as [|x l IH]; intros k H; [cbn in H; lia|].
  destruct k as [|k]; [reflexivity|].
  cbn [skipn nth]. rewrite IH by (cbn in H; lia). reflexivity.
Qed.

(** What the source of [with_source] hands out from position [k] on. *)
Lemma source_draw (bs : list byte) (s k m : nat) :
  (k + m <= List.length bs)%nat ->
  map (fun n => nth (n - s) bs x00) (seq (s + k) m) = firstn m (skipn k bs).
Proof.
  revert k. induction m as [|m IH]; intros k H; [reflexivity|].
  cbn [seq map]. rewrite (skipn_nth_cons x00 bs k) by lia.
  cbn [firstn]. f_equal.
  - f_equal. lia.
  - replace (S (s + k)) with (s + S k)%nat by lia. apply IH. lia.
Qed.

Lemma two_turn_ids_minted (req1 req2 : ChatRequest.t) (w : World)
      (bs : list byte) :
  ChatRequest.session_id req1 = None ->
  ChatRequest.session_id req2 = None ->
  whitespace_only (ChatRequest.message req1) = false ->
  whitespace_only (ChatRequest.message req2) = false ->
  List.length bs = 16%nat ->
  two_turn_ids req1 req2 (with_source w bs) =
    Some (hex (firstn 8 bs), hex (skipn 8 bs)).
Proof.
  intros Hn1 Hn2 Hm1 Hm2 Hlen.
  unfold two_turn_ids, bind.
  destruct (chat_returns req1 (with_source w bs) Hm1)
    as (w1 & Hrun1 & _ & _ & Hent1 & _ & Hdr1).
  rewrite (post_api_chat_not_blank _ _ Hm1), Hrun1.
  destruct (chat_returns req2 w1 Hm2) as (w2 & Hrun2 & _).
  rewrite (post_api_chat_not_blank _ _ Hm2), Hrun2.
  cbn [ret ChatResponse.session_id].
  unfold turn_session_id, minted_id. rewrite Hn1, Hn2.
  rewrite Hn1 in Hdr1. rewrite Hent1, Hdr1.
  cbn [with_source entropy drawn].
  replace (seq (drawn w) 8) with (seq (drawn w + 0) 8) by (f_equal; lia).
  rewrite !source_draw by lia.
  rewrite skipn_O.
  rewrite (firstn_all2 (n := 8) (skipn 8 bs)) by (rewrite length_skipn; lia).
  reflexivity.
Qed.

Lemma ids_clash_halves (req1 req2 : ChatRequest.t) (w : World)
      (bs : list byte) :
  ChatRequest.session_id req1 = None ->
  ChatRequest.session_id req2 = None ->
  whitespace_only (ChatRequest.message req1) = false ->
  whitespace_only (ChatRequest.message req2) = false ->
  List.length bs = (8 + 8)%nat ->
  ids_clash req1 req2 w bs = true <-> firstn 8 bs = skipn 8 bs.
Proof.
  intros Hn1 Hn2 Hm1 Hm2 Hlen. unfold ids_clash.
  rewrite (two_turn_ids_minted req1 req2 w bs Hn1 Hn2 Hm1 Hm2 Hlen).
  rewrite str_eqb_eq. split; [apply hex_inj|intros ->; reflexivity].
Qed.

Lemma clash_counts (req1 req2 : ChatRequest.t) (w : World) :
  ChatRequest.session_id req1 = None ->
  ChatRequest.session_id req2 = None ->
  whitespace_only (ChatRequest.message req1) = false ->
  whitespace_only (ChatRequest.message req2) = false ->
  N.of_nat (List.length (all_draws 16)) = (2 ^ 128)%N /\
  N.of_nat (List.length (filter (ids_clash req1 req2 w) (all_draws 16))) =
    (2 ^ 64)%N.
Proof.
  intros Hn1 Hn2 Hm1 Hm2. split.
  - rewrite (count_all_draws 16). reflexivity.
  - change (all_draws 16) with (all_draws (8 + 8)).
    rewrite (equal_halves_count 8 (ids_clash req1 req2 w)).
    + rewrite (count_all_draws 8). reflexivity.
    + intros bs Hlen. now apply ids_clash_halves.
Qed.

(** C6.  A turn without a session identifier from the caller returns a
    minted one: the print of the next eight bytes of the random source,
    sixteen characters long, each a hexadecimal digit.  Two such turns get
    the same identifier only when their eight bytes are the same.  Of the
    2^128 strings of sixteen bytes that the source can hand to two turns
    in a row, each as likely as any other, 2^64 give the two turns the
    same identifier: they get two different identifiers except with
    probability 2^-64. *)
Theorem minted_session_id :
  (forall (req : ChatRequest.t) (w : World),
      ChatRequest.session_id req = None ->
      whitespace_only (ChatRequest.message req) = false ->
      exists (resp : ChatResponse.t) (w' : World) (bs : list byte),
        post_api_chat req w = (Returned resp, w') /\
        bs = map (entropy w) (seq (drawn w) 8) /\
        List.length bs = 8%nat /\
        ChatResponse.session_id resp = hex bs /\
        List.length (ChatResponse.session_id resp) = 16%nat /\
        forallb is_hexdigit (ChatResponse.session_id resp) = true /\
        drawn w' = (drawn w + 8)%nat /\ entropy w' = entropy w) /\
  (forall (req1 req2 : ChatRequest.t) (w1 w1' w2 w2' : World)
          (resp1 resp2 : ChatResponse.t),
      ChatRequest.session_id req1 = None ->
      ChatRequest.session_id req2 = None ->
      post_api_chat req1 w1 = (Returned resp1, w1') ->
      post_api_chat req2 w2 = (Returned resp2, w2') ->
      (ChatResponse.session_id resp1 = ChatResponse.session_id resp2 <->
       map (entropy w1) (seq (drawn w1) 8) =
       map (entropy w2) (seq (drawn w2) 8))) /\
  (forall (req1 req2 : ChatRequest.t) (w : World),
      ChatRequest.session_id req1 = None ->
      ChatRequest.session_id req2 = None ->
      whitespace_only (ChatRequest.message req1) = false ->
      whitespace_only (ChatRequest.message req2) = false ->
      (forall bs : list byte,
          List.length bs = 16%nat ->
          two_turn_ids req1 req2 (with_source w bs) =
            Some (hex (firstn 8 bs), hex (skipn 8 bs))) /\
      (forall bs : list byte,
          In bs (all_draws 16) <-> List.length bs = 16%nat) /\
      NoDup (all_draws 16) /\
      N.of_nat (List.length (all_draws 16)) = 2 ^ 128 /\
      N.of_nat (List.length (filter (ids_clash req1 req2 w) (all_draws 16))) =
        2 ^ 64).
Proof.
  split; [|split].
  - intros req w Hnone Hmsg.
    destruct (chat_returns req w Hmsg) as (w' & Hrun & _ & _ & Hent & _ & Hdr).
    rewrite Hnone in Hdr.
    eexists _, w', (map (entropy w) (seq (drawn w) 8)).
    rewrite (post_api_chat_not_blank req w Hmsg).
    split; [exact Hrun|]. cbn [ChatResponse.session_id].
    unfold turn_session_id. rewrite Hnone.
    split; [reflexivity|].
    split; [now rewrite length_map, length_seq|].
    split; [reflexivity|].
    split; [apply minted_id_length|].
    split; [apply hex_digits_only|].
    split; assumption.
  - intros req1 req2 w1 w1' w2 w2' resp1 resp2 Hn1 Hn2 Hr1 Hr2.
    destruct (returned_not_blank _ _ _ _ Hr1) as [Hm1 Hc1].
    destruct (returned_not_blank _ _ _ _ Hr2) as [Hm2 Hc2].
    destruct (chat_returns req1 w1 Hm1) as (v1 & Hv1 & _).
    destruct (chat_returns req2 w2 Hm2) as (v2 & Hv2 & _).
    rewrite Hc1 in Hv1. rewrite Hc2 in Hv2.
    injection Hv1 as -> _. injection Hv2 as -> _.
    cbn [ChatResponse.session_id]. unfold turn_session_id.
    rewrite Hn1, Hn2. unfold minted_id.
    split; [apply hex_inj|intros ->; reflexivity].
  - intros req1 req2 w Hn1 Hn2 Hm1 Hm2.
    split; [intros bs Hlen; now apply two_turn_ids_minted|].
    split; [intros bs; apply In_all_draws|].
    split; [apply NoDup_all_draws|].
    now apply clash_counts.
Qed.

Lemma minted_session_id_witness :
  exists (resp : ChatResponse.t) (w' : World) (bs : list byte),
    post_api_chat (request (lit "I am tired") None) world_with_store =
      (Returned resp, w') /\
    ChatResponse.session_id resp = hex bs /\
    hex bs = lit "052a4f7499bee308".
Proof.
  destruct (proj1 minted_session_id (request (lit "I am tired") None)
                  world_with_store eq_refl eq_refl)
    as (resp & w' & bs & Hrun & Hbs & _ & Hsid & _).
  exists resp, w', bs. split; [exact Hrun|]. split; [exact Hsid|].
  rewrite Hbs. reflexivity.
Defined.

(** C7.  The read of the turns of a session returns, whatever the session
    identifier and the limit, and returns the empty sequence when there is
    no store or when the session has no recorded message; the store is as
    before.

    What [get_documents] reads is modelled from the specification. *)
Theorem no_messages_reads_empty (session_id : str) (limit : Z) (w : World) :
  (exists (msgs : list Document) (w' : World),
      get_messages session_id limit w = (Returned msgs, w') /\
      db w' = db w) /\
  (db w = None \/
   (exists d : Store.Database,
       db w = Some d /\ session_log session_id d = []) ->
   exists w' : World,
     get_messages session_id limit w = (Returned [], w') /\
     db w' = db w).
Proof.
  unfold get_messages, bind, db_is_not_None, get_documents, ret.
  destruct w as [[d|] ent n clk cs]; cbn [db log negb].
  - split.
    + eexists _, _. split; reflexivity.
    + intros [H|(d0 & H & Hlog)]; [discriminate|].
      injection H as ->.
      unfold session_log in Hlog. rewrite Hlog.
      eexists. split.
      * unfold Store.take. rewrite firstn_nil. reflexivity.
      * reflexivity.
  - split.
    + eexists _, _. split; reflexivity.
    + intros _. eexists. split; reflexivity.
Qed.

Lemma no_messages_reads_empty_witness :
  session_log (lit "nobody")
    [(lit "message",
      message_document (lit "abc") (lit "user") (lit "hi") ++
      [(lit "_id", VOid 0)])] = [] /\
  exists w' : World,
    get_messages (lit "nobody") 50 world_with_store = (Returned [], w').
Proof.
  split; [reflexivity|].
  destruct (proj2 (no_messages_reads_empty (lit "nobody") 50 world_with_store))
    as (w' & Hrun & _).
  - right. eexists. split; reflexivity.
  - exists w'. exact Hrun.
Defined.

(** C10.  When the caller supplies the empty string as session identifier,
    the response does not carry the empty string: it carries a minted
    identifier of sixteen hexadecimal digits.  With a store, the two
    messages of the turn are stored under the minted identifier, and the
    log of the empty identifier is as before. *)
Theorem empty_session_id_is_replaced (req : ChatRequest.t) (w : World) :
  ChatRequest.session_id req = Some [] ->
  whitespace_only (ChatRequest.message req) = false ->
  exists (resp : ChatResponse.t) (w' : World),
    post_api_chat req w = (Returned resp, w') /\
    ChatResponse.session_id resp = minted_id w /\
    ChatResponse.session_id resp <> [] /\
    List.length (ChatResponse.session_id resp) = 16%nat /\
    forallb is_hexdigit (ChatResponse.session_id resp) = true /\
    (forall d : Store.Database,
        db w = Some d ->
        exists (user_message assistant_message : Document)
               (d' : Store.Database),
          db w' = Some d' /\
          d' = d ++ [ (lit "message", user_message);
                      (lit "message", assistant_message) ] /\
          dict_get (lit "session_id") user_message =
            Some (VStr (minted_id w)) /\
          dict_get (lit "session_id") assistant_message =
            Some (VStr (minted_id w)) /\
          session_log (minted_id w) d' =
            session_log (minted_id w) d ++ [user_message; assistant_message] /\
          session_log [] d' = session_log [] d /\
          calls w' =
            calls w ++
            [ GenerateReply (ChatRequest.message req);
              CreateDocument (lit "message")
                (message_document (minted_id w) (lit "user")
                                  (ChatRequest.message req));
              CreateDocument (lit "message")
                (message_document (minted_id w) (lit "assistant")
                                  (ChatResponse.reply resp)) ]).
Proof.
  intros Hsid Hmsg.
  destruct (chat_returns req w Hmsg) as (w' & Hrun & Hdb' & Hcalls & _).
  assert (Hturn : turn_session_id req w = minted_id w)
    by (unfold turn_session_id; now rewrite Hsid).
  rewrite Hturn in Hrun, Hdb', Hcalls.
  eexists _, w'. rewrite (post_api_chat_not_blank req w Hmsg).
  split; [exact Hrun|]. cbn [ChatResponse.session_id].
  split; [reflexivity|].
  split; [apply minted_id_nonempty|].
  split; [apply minted_id_length|].
  split; [apply hex_digits_only|].
  intros d Hd. rewrite Hd in Hdb', Hcalls.
  eexists _, _, _. split; [exact Hdb'|]. split; [reflexivity|].
  do 2 (split; [reflexivity|]).
  split; [|split].
  - rewrite session_log_after_turn, str_eqb_refl. reflexivity.
  - rewrite session_log_after_turn, str_eqb_neq by apply minted_id_nonempty.
    apply app_nil_r.
  - exact Hcalls.
Qed.

Lemma empty_session_id_is_replaced_witness :
  exists (resp : ChatResponse.t) (w' : World),
    post_api_chat (request (lit "I am tired") (Some [])) world_with_store =
      (Returned resp, w') /\
    ChatResponse.session_id resp = lit "052a4f7499bee308".
Proof.
  destruct (empty_session_id_is_replaced
              (request (lit "I am tired") (Some [])) world_with_store
              eq_refl eq_refl)
    as (resp & w' & Hrun & Hsid & _).
  exists resp, w'. split; [exact Hrun|]. rewrite Hsid. reflexivity.
Defined.

End HandlerProperties.

(** * Further properties of the reply generator *)

Section GeneratorShape.

Lemma detect_goals_labels (text : str) :
  detect_goals text =
  labels_for (any_in weight_loss_keys text) (any_in muscle_gain_keys text)
             (any_in energy_keys text) (any_in gut_health_keys text).
Proof.
  unfold detect_goals, labels_for.
  destruct (any_in weight_loss_keys text), (any_in muscle_gain_keys text),
    (any_in energy_keys text), (any_in gut_health_keys text); reflexivity.
Qed.

Lemma meal_plan_test (text : str) :
  contains (lit "meal plan") text || contains (lit "plan") text =
  contains (lit "plan") text.
Proof.
  destruct (contains (lit "meal plan") text) eqn:E; [|reflexivity].
  change (lit "meal plan") with (lit "meal " ++ lit "plan") in E.
  apply contains_suffix in E. now rewrite E.
Qed.

Lemma reply_parts_for (text : str) :
  reply_parts text =
  parts_for (detect_goals text) (contains (lit "breakfast") text)
            (contains (lit "vegan") text) (contains (lit "plan") text).
Proof.
  unfold reply_parts, parts_for. rewrite meal_plan_test.
  destruct (detect_goals text), (contains (lit "breakfast") text),
    (contains (lit "vegan") text), (contains (lit "plan") text); reflexivity.
Qed.

(** The reply is a function of seven tests on the lowercased text. *)
Lemma reply_by_tests (s : str) :
  generate_nutrition_reply s =
  join (lit " ")
    (parts_for (labels_for (any_in weight_loss_keys (lower s))
                           (any_in muscle_gain_keys (lower s))
                           (any_in energy_keys (lower s))
                           (any_in gut_health_keys (lower s)))
               (contains (lit "breakfast") (lower s))
               (contains (lit "vegan") (lower s))
               (contains (lit "plan") (lower s))).
Proof.
  unfold generate_nutrition_reply.
  now rewrite reply_parts_for, detect_goals_labels.
Qed.

Lemma lower_char_ascii_lower (c : char) :
  lower_char (ascii_lower_char c) = lower_char c.
Proof.
  unfold ascii_lower_char, lower_char.
  destruct ((65 <=? c) && (c <=? 90)) eqn:Hc; [|now rewrite Hc].
  apply andb_true_iff in Hc as [H1 H2]. apply N.leb_le in H1, H2.
  replace ((65 <=? c + 32) && (c + 32 <=? 90)) with false
    by (symmetry; apply andb_false_iff; right; apply N.leb_gt; lia).
  replace (c + 32 =? 304) with false by (symmetry; apply N.eqb_neq; lia).
  replace (c + 32 =? 8490) with false by (symmetry; apply N.eqb_neq; lia).
  reflexivity.
Qed.

Lemma lower_ascii_lower (s : str) : lower (ascii_lower s) = lower s.
Proof.
  unfold lower, ascii_lower.
  induction s as [|c s IH]; [reflexivity|].
  cbn [map flat_map]. now rewrite lower_char_ascii_lower, IH.
Qed.

(** X1.  The reply does not depend on the case of the ASCII letters of the
    input: two inputs that become equal once their ASCII capitals are made
    small get the same reply. *)
Theorem reply_ignores_ascii_case (s t : str) :
  ascii_lower s = ascii_lower t ->
  generate_nutrition_reply s = generate_nutrition_reply t.
Proof.
  intros H. unfold generate_nutrition_reply.
  now rewrite <- (lower_ascii_lower s), <- (lower_ascii_lower t), H.
Qed.

Lemma reply_ignores_ascii_case_witness :
  ascii_lower (lit "I Am TIRED, any Plan?") =
    ascii_lower (lit "i am tired, ANY plan?") /\
  generate_nutrition_reply (lit "I Am TIRED, any Plan?") =
    generate_nutrition_reply (lit "i am tired, ANY plan?").
Proof.
  split; [reflexivity|].
  apply (reply_ignores_ascii_case (lit "I Am TIRED, any Plan?")
                                  (lit "i am tired, ANY plan?")).
  reflexivity.
Defined.

(** X2.  Whatever the input, the reply begins with the opening, ends with
    the closing, holds the general guidance, and is made of at least three
    and at most seven parts. *)
Theorem reply_frame (s : str) :
  startswith opening (generate_nutrition_reply s) = true /\
  endswith closing (generate_nutrition_reply s) = true /\
  contains general_guidance (generate_nutrition_reply s) = true /\
  (3 <= List.length (reply_parts (lower s)) <= 7)%nat.
Proof.
  rewrite reply_by_tests, reply_parts_for, detect_goals_labels.
  destruct (any_in weight_loss_keys (lower s)),
    (any_in muscle_gain_keys (lower s)), (any_in energy_keys (lower s)),
    (any_in gut_health_keys (lower s)),
    (contains (lit "breakfast") (lower s)),
    (contains (lit "vegan") (lower s)), (contains (lit "plan") (lower s));
    (split; [vm_compute; reflexivity|]);
    (split; [vm_compute; reflexivity|]);
    (split; [vm_compute; reflexivity|]);
    cbn [labels_for parts_for app List.length]; lia.
Qed.

(** X3.  When the lowercased input contains both "breakfast" and "vegan",
    the breakfast advice and the vegan advice both occur in the reply, the
    breakfast advice right after the general guidance and the vegan advice
    right after it, whatever the order of the two words in the input. *)
Theorem breakfast_before_vegan (s : str) :
  contains (lit "breakfast") (lower s) = true ->
  contains (lit "vegan") (lower s) = true ->
  contains (general_guidance ++ lit " " ++ breakfast_fragment ++ lit " " ++
            vegan_fragment)
           (generate_nutrition_reply s) = true.
Proof.
  intros Hb Hv. rewrite reply_by_tests, Hb, Hv.
  destruct (any_in weight_loss_keys (lower s)),
    (any_in muscle_gain_keys (lower s)), (any_in energy_keys (lower s)),
    (any_in gut_health_keys (lower s)), (contains (lit "plan") (lower s));
    vm_compute; reflexivity.
Qed.

Lemma breakfast_before_vegan_witness :
  contains (lit "breakfast") (lower breakfast_vegan_input) = true /\
  contains (lit "vegan") (lower breakfast_vegan_input) = true /\
  contains (general_guidance ++ lit " " ++ breakfast_fragment ++ lit " " ++
            vegan_fragment)
           (generate_nutrition_reply breakfast_vegan_input) = true.
Proof.
  split; [reflexivity|]. split; [reflexivity|].
  apply (breakfast_before_vegan breakfast_vegan_input); reflexivity.
Defined.

(** X4.  The conditional sentences occur in the reply only when their test
    fires: the breakfast advice exactly when the lowercased input contains
    "breakfast", the vegan advice exactly when it contains "vegan", the
    meal-plan offer exactly when it contains "plan" (the test of "meal
    plan" decides nothing), and a sentence on detected goals exactly when
    one of the four keyword sets matches. *)
Theorem conditional_sentences_iff_tests (s : str) :
  contains breakfast_fragment (generate_nutrition_reply s) =
    contains (lit "breakfast") (lower s) /\
  contains vegan_fragment (generate_nutrition_reply s) =
    contains (lit "vegan") (lower s) /\
  contains meal_plan_fragment (generate_nutrition_reply s) =
    contains (lit "plan") (lower s) /\
  contains (lit "I detect goals around") (generate_nutrition_reply s) =
    any_in weight_loss_keys (lower s) || any_in muscle_gain_keys (lower s) ||
    any_in energy_keys (lower s) || any_in gut_health_keys (lower s).
Proof.
  rewrite reply_by_tests.
  destruct (any_in weight_loss_keys (lower s)),
    (any_in muscle_gain_keys (lower s)), (any_in energy_keys (lower s)),
    (any_in gut_health_keys (lower s)),
    (contains (lit "breakfast") (lower s)),
    (contains (lit "vegan") (lower s)), (contains (lit "plan") (lower s));
    repeat split; vm_compute; reflexivity.
Qed.

End GeneratorShape.

(** * The reply in a longer message *)

Section GeneratorContext.

Lemma contains_in_context (k a s b : str) :
  contains k (lower s) = true ->
  contains k (lower (a ++ s ++ b)) = true.
Proof.
  intros H. apply contains_trans with (b := lower s); [exact H|].
  apply contains_spec. exists (lower a), (lower b).
  now rewrite !lower_app.
Qed.

Lemma any_in_in_context (keys : list str) (a s b : str) :
  any_in keys (lower s) = true ->
  any_in keys (lower (a ++ s ++ b)) = true.
Proof.
  unfold any_in. rewrite !existsb_exists.
  intros (k & Hk & H). exists k. split; [exact Hk|].
  now apply contains_in_context.
Qed.

Lemma In_labels_for (x : str) (w m e g : bool) :
  In x (labels_for w m e g) <->
  (w = true /\ x = lit "weight loss") \/
  (m = true /\ x = lit "muscle gain") \/
  (e = true /\ x = lit "energy") \/
  (g = true /\ x = lit "gut health").
Proof.
  unfold labels_for. rewrite !in_app_iff.
  destruct w, m, e, g; cbn [In]; intuition (congruence || discriminate).
Qed.

Lemma In_parts_for (p : str) (goals : list str) (bf vg mp : bool) :
  In p (parts_for goals bf vg mp) <->
  p = opening \/
  (goals <> [] /\ p = goal_fragment goals) \/
  p = general_guidance \/
  (bf = true /\ p = breakfast_fragment) \/
  (vg = true /\ p = vegan_fragment) \/
  (mp = true /\ p = meal_plan_fragment) \/
  p = closing.
Proof.
  unfold parts_for. rewrite !in_app_iff.
  destruct goals, bf, vg, mp; cbn [In];
    intuition (congruence || discriminate).
Qed.

(** X5.  Putting a message inside a longer one loses nothing: every goal
    detected in the message is detected in the longer one, and every part
    of the reply to the message, the sentence on goals aside (it may list
    more goals), is a part of the reply to the longer one. *)
Theorem reply_in_context (a s b : str) :
  incl (detect_goals (lower s)) (detect_goals (lower (a ++ s ++ b))) /\
  (forall p : str,
      In p (reply_parts (lower s)) ->
      p <> goal_fragment (detect_goals (lower s)) ->
      In p (reply_parts (lower (a ++ s ++ b)))).
Proof.
  split.
  - intros x. rewrite !detect_goals_labels, !In_labels_for.
    intros [[H ->]|[[H ->]|[[H ->]|[H ->]]]];
      apply (any_in_in_context _ a s b) in H; tauto.
  - intros p. rewrite !reply_parts_for, !In_parts_for.
    intros [H|[[_ H]|[H|[[H ->]|[[H ->]|[[H ->]|H]]]]]] Hp;
      try (apply (contains_in_context _ a s b) in H); try tauto.
Qed.

Lemma reply_in_context_witness :
  In breakfast_fragment (reply_parts (lower (lit "Breakfast"))) /\
  In breakfast_fragment
     (reply_parts (lower (lit "Hi! " ++ lit "Breakfast" ++ lit " ideas?"))).
Proof.
  assert (H : In breakfast_fragment (reply_parts (lower (lit "Breakfast"))))
    by (right; right; left; reflexivity).
  split; [exact H|].
  apply (proj2 (reply_in_context (lit "Hi! ") (lit "Breakfast") (lit " ideas?"))
               breakfast_fragment H).
  vm_compute. discriminate.
Defined.

End GeneratorContext.

(** * Further properties of the handlers *)

Section HandlerBehaviour.

Lemma dict_get_del_same (k : str) (d : Document) :
  dict_get k (dict_del k d) = None.
Proof.
  induction d as [|[k' v] d IH]; [reflexivity|].
  unfold dict_del in *. cbn [filter fst].
  destruct (str_eqb k k') eqn:E; cbn [negb]; [exact IH|].
  cbn [dict_get]. now rewrite E.
Qed.

Lemma dict_get_del_other (k k' : str) (d : Document) :
  k <> k' -> dict_get k (dict_del k' d) = dict_get k d.
Proof.
  intros Hk. induction d as [|[e v] d IH]; [reflexivity|].
  unfold dict_del in *. cbn [filter fst dict_get].
  destruct (str_eqb k' e) eqn:E; cbn [negb].
  - apply str_eqb_eq in E. subst e.
    now rewrite (str_eqb_neq k k' Hk).
  - cbn [dict_get]. now rewrite IH.
Qed.

Lemma dict_get_set_same (k : str) (v : Value) (d : Document) :
  dict_get k (dict_set k v d) = Some v.
Proof.
  induction d as [|[e u] d IH]; cbn [dict_set dict_get].
  - now rewrite str_eqb_refl.
  - destruct (str_eqb k e) eqn:E; cbn [dict_get].
    + now rewrite str_eqb_refl.
    + now rewrite E.
Qed.

Lemma dict_get_set_other (k k' : str) (v : Value) (d : Document) :
  k <> k' -> dict_get k (dict_set k' v d) = dict_get k d.
Proof.
  intros Hk. induction d as [|[e u] d IH]; cbn [dict_set dict_get].
  - now rewrite (str_eqb_neq k k' Hk).
  - destruct (str_eqb k' e) eqn:E; cbn [dict_get].
    + apply str_eqb_eq in E. subst e.
      now rewrite (str_eqb_neq k k' Hk).
    + now rewrite IH.
Qed.

Lemma surface_id_other (k : str) (m : Document) :
  k <> lit "_id" -> k <> lit "id" ->
  dict_get k (surface_id m) = dict_get k m.
Proof.
  intros H1 H2. unfold surface_id.
  destruct (dict_get (lit "_id") m); [|reflexivity].
  now rewrite dict_get_set_other, dict_get_del_other.
Qed.

(** X6.  What the loop of [get_messages] does to a document: afterwards it
    has no key "_id"; when it had one, its key "id" holds the printed
    identifier; a document without "_id" is untouched; and every other key
    keeps its value. *)
Theorem surface_id_renames_identifier (m : Document) :
  dict_get (lit "_id") (surface_id m) = None /\
  (forall oid : Value,
      dict_get (lit "_id") m = Some oid ->
      dict_get (lit "id") (surface_id m) = Some (VStr (py_str oid))) /\
  (dict_get (lit "_id") m = None -> surface_id m = m) /\
  (forall k : str,
      k <> lit "_id" -> k <> lit "id" ->
      dict_get k (surface_id m) = dict_get k m).
Proof.
  split; [|split; [|split]].
  - unfold surface_id. destruct (dict_get (lit "_id") m) eqn:E; [|exact E].
    rewrite dict_get_set_other by discriminate.
    apply dict_get_del_same.
  - intros oid E. unfold surface_id. rewrite E. apply dict_get_set_same.
  - intros E. unfold surface_id. now rewrite E.
  - intros k. apply surface_id_other.
Qed.

Lemma surface_id_renames_identifier_witness :
  dict_get (lit "_id")
    (stored (message_document (lit "abc") (lit "user") (lit "hi")) 10) =
    Some (VOid 10) /\
  dict_get (lit "id")
    (surface_id
       (stored (message_document (lit "abc") (lit "user") (lit "hi")) 10)) =
    Some (VStr (lit "00000000000000000000000a")).
Proof.
  split; [reflexivity|].
  apply (proj1 (proj2 (surface_id_renames_identifier
           (stored (message_document (lit "abc") (lit "user") (lit "hi")) 10)))
           (VOid 10)).
  reflexivity.
Defined.




(** X9.  A session identifier that the caller supplies and that is not
    empty comes back as it is, white space and all, and no byte is drawn
    from the random source. *)
Theorem supplied_session_id_is_kept (req : ChatRequest.t) (w : World)
        (s : str) :
  ChatRequest.session_id req = Some s ->
  s <> [] ->
  whitespace_only (ChatRequest.message req) = false ->
  exists (resp : ChatResponse.t) (w' : World),
    post_api_chat req w = (Returned resp, w') /\
    ChatResponse.session_id resp = s /\
    drawn w' = drawn w /\ entropy w' = entropy w.
Proof.
  intros Hs Hne Hmsg.
  destruct (chat_returns req w Hmsg) as (w' & Hrun & _ & _ & Hent & _ & Hdr).
  assert (Ht : truthy s = true) by (destruct s; [congruence|reflexivity]).
  unfold turn_session_id in Hrun. rewrite Hs, Ht in *.
  eexists _, w'. rewrite (post_api_chat_not_blank req w Hmsg).
  split; [exact Hrun|]. repeat split; assumption.
Qed.

Lemma supplied_session_id_is_kept_witness :
  exists (resp : ChatResponse.t) (w' : World),
    post_api_chat (request (lit "I am tired") (Some (lit " abc ")))
                  world_with_store = (Returned resp, w') /\
    ChatResponse.session_id resp = lit " abc " /\
    drawn w' = 0%nat.
Proof.
  destruct (supplied_session_id_is_kept
              (request (lit "I am tired") (Some (lit " abc ")))
              world_with_store (lit " abc ") eq_refl)
    as (resp & w' & Hrun & Hsid & Hdr & _).
  - discriminate.
  - reflexivity.
  - exists resp, w'. auto.
Defined.

Lemma transcript_app (l1 l2 : list Document) :
  transcript (l1 ++ l2) = transcript l1 ++ transcript l2.
Proof. apply map_app. Qed.

Lemma transcript_surface_id (docs : list Document) :
  transcript (map surface_id docs) = transcript docs.
Proof.
  unfold transcript. rewrite map_map. apply map_ext. intros m.
  now rewrite !surface_id_other by discriminate.
Qed.

(** X10.  Two turns in a row under one supplied session identifier, with a
    store: both responses carry that identifier, four documents are added,
    and the log of the session reads on with the first message, the first
    reply, the second message and the second reply, in this order.

    The effect of an insert on the store is modelled from the
    specification. *)
Theorem two_turns_in_one_session (req1 req2 : ChatRequest.t) (w : World)
        (d : Store.Database) (sid : str) :
  db w = Some d ->
  ChatRequest.session_id req1 = Some sid ->
  ChatRequest.session_id req2 = Some sid ->
  sid <> [] ->
  whitespace_only (ChatRequest.message req1) = false ->
  whitespace_only (ChatRequest.message req2) = false ->
  exists (r1 r2 : ChatResponse.t) (w2 : World) (d2 : Store.Database),
    (r1 <- post_api_chat req1 ;;
     r2 <- post_api_chat req2 ;;
     ret (r1, r2)) w = (Returned (r1, r2), w2) /\
    ChatResponse.session_id r1 = sid /\
    ChatResponse.session_id r2 = sid /\
    db w2 = Some d2 /\
    List.length d2 = (List.length d + 4)%nat /\
    transcript (session_log sid d2) =
      transcript (session_log sid d) ++
      [ (Some (VStr (lit "user")), Some (VStr (ChatRequest.message req1)));
        (Some (VStr (lit "assistant")), Some (VStr (ChatResponse.reply r1)));
        (Some (VStr (lit "user")), Some (VStr (ChatRequest.message req2)));
        (Some (VStr (lit "assistant")), Some (VStr (ChatResponse.reply r2))) ].
Proof.
  intros Hdb Hs1 Hs2 Hne Hm1 Hm2.
  assert (Ht : truthy sid = true) by (destruct sid; [congruence|reflexivity]).
  destruct (chat_returns req1 w Hm1) as (w1 & Hrun1 & Hdb1 & _).
  destruct (chat_returns req2 w1 Hm2) as (w2 & Hrun2 & Hdb2 & _).
  unfold turn_session_id in *. rewrite Hs1, Ht in *. rewrite Hs2, Ht in *.
  rewrite Hdb in Hdb1. rewrite Hdb1 in Hdb2.
  eexists _, _, w2, _.
  split.
  { unfold bind. rewrite (post_api_chat_not_blank req1 w Hm1), Hrun1.
    rewrite (post_api_chat_not_blank req2 w1 Hm2), Hrun2. reflexivity. }
  split; [reflexivity|]. split; [reflexivity|].
  split; [exact Hdb2|].
  split.
  { rewrite !length_app. cbn [List.length]. lia. }
  rewrite !session_log_after_turn, !str_eqb_refl, !transcript_app.
  rewrite <- app_assoc. reflexivity.
Qed.

Lemma two_turns_in_one_session_witness :
  exists (r1 r2 : ChatResponse.t) (w2 : World) (d2 : Store.Database),
    (r1 <- post_api_chat (request (lit "I am tired") (Some (lit "abc"))) ;;
     r2 <- post_api_chat (request (lit "Any plan?") (Some (lit "abc"))) ;;
     ret (r1, r2)) world_with_store = (Returned (r1, r2), w2) /\
    db w2 = Some d2 /\
    List.length (session_log (lit "abc") d2) = 5%nat.
Proof.
  destruct (two_turns_in_one_session
              (request (lit "I am tired") (Some (lit "abc")))
              (request (lit "Any plan?") (Some (lit "abc")))
              world_with_store
              [(lit "message",
                message_document (lit "abc") (lit "user") (lit "hi") ++
                [(lit "_id", VOid 0)])]
              (lit "abc") eq_refl eq_refl eq_refl)
    as (r1 & r2 & w2 & d2 & Hrun & _ & _ & Hdb & _ & Hlog).
  - discriminate.
  - reflexivity.
  - reflexivity.
  - exists r1, r2, w2, d2. split; [exact Hrun|]. split; [exact Hdb|].
    apply (f_equal (@List.length _)) in Hlog.
    unfold transcript in Hlog. rewrite length_app, !length_map in Hlog.
    rewrite Hlog. reflexivity.
Defined.

(** X11.  What a turn stores can be read back: after a turn with a store,
    [get_messages] for the session of the response, with a limit that
    covers the log, returns the messages the session had followed by the
    user's message and the assistant's reply.

    What the store keeps and hands back is modelled from the
    specification. *)
Theorem turn_is_read_back (req : ChatRequest.t) (w : World)
        (d : Store.Database) (limit : Z) :
  db w = Some d ->
  whitespace_only (ChatRequest.message req) = false ->
  (List.length (session_log (turn_session_id req w) d) + 2 <=
   Z.to_nat limit)%nat ->
  exists (resp : ChatResponse.t) (w' : World) (msgs : list Document)
         (w'' : World),
    post_api_chat req w = (Returned resp, w') /\
    get_messages (ChatResponse.session_id resp) limit w' =
      (Returned msgs, w'') /\
    List.length msgs =
      (List.length (session_log (ChatResponse.session_id resp) d) + 2)%nat /\
    transcript msgs =
      transcript (session_log (ChatResponse.session_id resp) d) ++
      [ (Some (VStr (lit "user")), Some (VStr (ChatRequest.message req)));
        (Some (VStr (lit "assistant")), Some (VStr (ChatResponse.reply resp))) ].
Proof.
  intros Hdb Hmsg Hlimit.
  destruct (chat_returns req w Hmsg) as (w' & Hrun & Hdb' & _).
  rewrite Hdb in Hdb'.
  eexists _, w', _, _.
  rewrite (post_api_chat_not_blank req w Hmsg).
  split; [exact Hrun|]. cbn [ChatResponse.session_id ChatResponse.reply].
  assert (Hread :
            forall sid : str,
              get_messages sid limit w' =
              (Returned
                 (map surface_id
                      (firstn (Z.to_nat limit)
                              (session_log sid
                                 (d ++
                                  [ (lit "message",
                                     stored
                                       (message_document (turn_session_id req w)
                                          (lit "user") (ChatRequest.message req))
                                       (N.of_nat (List.length d)));
                                    (lit "message",
                                     stored
                                       (message_document (turn_session_id req w)
                                          (lit "assistant")
                                          (generate_nutrition_reply
                                             (ChatRequest.message req)))
                                       (N.of_nat
                                          (List.length
                                             (d ++
                                              [(lit "message",
                                                stored
                                                  (message_document
                                                     (turn_session_id req w)
                                                     (lit "user")
                                                     (ChatRequest.message req))
                                                  (N.of_nat (List.length d)))])))) ])))),
               log w' (GetDocuments (lit "message")
                         [(lit "session_id", VStr sid)] (Some limit)))).
  { intros sid.
    unfold get_messages, bind, db_is_not_None, get_documents, ret.
    destruct w' as [dd ent n clk cs]. cbn [db] in Hdb'. subst dd.
    reflexivity. }
  split; [apply Hread|].
  rewrite session_log_after_turn, str_eqb_refl.
  rewrite firstn_all2 by (rewrite length_app; cbn [List.length]; lia).
  split.
  - rewrite length_map, length_app. reflexivity.
  - rewrite transcript_surface_id, transcript_app. reflexivity.
Qed.

Lemma turn_is_read_back_witness :
  exists (resp : ChatResponse.t) (w' : World) (msgs : list Document)
         (w'' : World),
    post_api_chat (request (lit "I am tired") (Some (lit "abc")))
                  world_with_store = (Returned resp, w') /\
    get_messages (ChatResponse.session_id resp) 50 w' = (Returned msgs, w'') /\
    List.length msgs = 3%nat.
Proof.
  destruct (turn_is_read_back
              (request (lit "I am tired") (Some (lit "abc")))
              world_with_store
              [(lit "message",
                message_document (lit "abc") (lit "user") (lit "hi") ++
                [(lit "_id", VOid 0)])]
              50 eq_refl eq_refl)
    as (resp & w' & msgs & w'' & Hrun & Hread & Hlen & _).
  - vm_compute. lia.
  - exists resp, w', msgs, w''. split; [exact Hrun|]. split; [exact Hread|].
    rewrite Hlen.
    assert (Hsid : ChatResponse.session_id resp = lit "abc").
    { vm_compute in Hrun. injection Hrun as <- _. reflexivity. }
    rewrite Hsid. reflexivity.
Defined.

(** X12.  The connectivity probe always answers and changes nothing,
    whatever the environment and whatever the driver does.  It reports
    "Connected" exactly when there is a store and the listing of its
    collections succeeds, and then hands out the names listed.  When the
    listing raises, the report carries the first 80 characters of the
    error after the prefix, stays "Not Connected" and lists no
    collection. *)
Theorem probe_always_answers (getenv : str -> option str)
        (driver : Store.Database -> str + list str) (w : World) :
  exists r : TestReport.t,
    test_database getenv driver w = (Returned r, w) /\
    TestReport.backend r = check_mark ++ lit " Running" /\
    (TestReport.connection_status r = lit "Connected" <->
     exists (d : Store.Database) (names : list str),
       db w = Some d /\ driver d = inr names) /\
    (forall (d : Store.Database) (names : list str),
        db w = Some d -> driver d = inr names ->
        TestReport.collections r = names /\
        TestReport.database r = check_mark ++ lit " Connected & Working") /\
    (forall (d : Store.Database) (e : str),
        db w = Some d -> driver d = inl e ->
        TestReport.database r = cross_mark ++ lit " Error: " ++ firstn 80 e /\
        (List.length (TestReport.database r) <= 89)%nat /\
        TestReport.connection_status r = lit "Not Connected" /\
        TestReport.collections r = []) /\
    (db w = None ->
     TestReport.database r =
       warning_mark ++ lit " Available but not initialized" /\
     TestReport.connection_status r = lit "Not Connected" /\
     TestReport.collections r = []).
Proof.
  unfold test_database.
  destruct (db w) as [d|] eqn:Hdb; [destruct (driver d) as [e|names] eqn:Hdrv|];
    (eexists; split; [reflexivity|]; split; [reflexivity|]);
    cbn [TestReport.connection_status TestReport.collections
         TestReport.database TestReport.set_database
         TestReport.set_collections TestReport.set_connection_status].
  - split; [split; [discriminate|intros (d0 & names & H & Hd); congruence]|].
    split; [intros d0 names H Hd; congruence|].
    split; [|discriminate].
    intros d0 e0 H Hd. assert (e0 = e) by congruence. subst e0.
    repeat split.
    change (cross_mark ++ lit " Error: " ++ firstn 80 e)
      with ((cross_mark ++ lit " Error: ") ++ firstn 80 e).
    rewrite length_app. pose proof (firstn_le_length 80 e).
    change (List.length (cross_mark ++ lit " Error: ")) with 9%nat. lia.
  - split; [split; [intros _; now exists d, names|reflexivity]|].
    split; [intros d0 names0 H Hd; split; [congruence|reflexivity]|].
    split; [intros d0 e H Hd; congruence|discriminate].
  - split; [split; [discriminate|intros (d0 & names & H & _); discriminate]|].
    split; [discriminate|]. split; [discriminate|].
    intros _. repeat split.
Qed.

Lemma probe_always_answers_witness :
  db world_with_store <> None /\
  exists r : TestReport.t,
    test_database sample_getenv failing_driver world_with_store =
      (Returned r, world_with_store) /\
    TestReport.database r = cross_mark ++ lit " Error: connection refused".
Proof.
  split; [discriminate|].
  destruct (probe_always_answers sample_getenv failing_driver world_with_store)
    as (r & Hrun & _ & _ & _ & Herr & _).
  exists r. split; [exact Hrun|].
  destruct (Herr _ (lit "connection refused") eq_refl eq_refl) as [-> _].
  reflexivity.
Defined.

End HandlerBehaviour.

(** * The reply generator on Python objects: no error, no effect *)

Section GeneratorOnObjects.

Lemma run_bind {A B} (m : Dyn.M A) (k : A -> Dyn.M B) (w : World) (a : A) :
  m w = (inr a, w) -> Dyn.mbind m k w = k a w.
Proof. intros H. unfold Dyn.mbind. now rewrite H. Qed.

Lemma dyn_any_in_strs (keys : list str) (t : str) (w : World) :
  Dyn.builtin_any (map Dyn.OStr keys) (Dyn.OStr t) w =
  (inr (any_in keys t), w).
Proof.
  induction keys as [|k keys IH]; [reflexivity|].
  cbn [map Dyn.builtin_any].
  rewrite (run_bind _ _ w (contains k t)) by reflexivity.
  unfold any_in. cbn [existsb].
  destruct (contains k t); [reflexivity|exact IH].
Qed.

Lemma dyn_generate_str (s : str) (w : World) :
  Dyn.generate_nutrition_reply_on_objects (Dyn.OStr s) w =
  (inr (Dyn.OStr (generate_nutrition_reply s)), w).
Proof.
  rewrite reply_by_tests.
  unfold Dyn.generate_nutrition_reply_on_objects.
  rewrite (run_bind _ _ w (Dyn.OStr (lower s))) by reflexivity.
  cbv beta zeta.
  rewrite (run_bind _ _ w _ (dyn_any_in_strs weight_loss_keys (lower s) w)).
  rewrite (run_bind _ _ w _ (dyn_any_in_strs muscle_gain_keys (lower s) w)).
  rewrite (run_bind _ _ w _ (dyn_any_in_strs energy_keys (lower s) w)).
  rewrite (run_bind _ _ w _ (dyn_any_in_strs gut_health_keys (lower s) w)).
  rewrite <- (meal_plan_test (lower s)).
  unfold Dyn.mbind, Dyn.op_in, Dyn.mret.
  destruct (any_in weight_loss_keys (lower s)),
    (any_in muscle_gain_keys (lower s)), (any_in energy_keys (lower s)),
    (any_in gut_health_keys (lower s)),
    (contains (lit "breakfast") (lower s)),
    (contains (lit "vegan") (lower s)),
    (contains (lit "meal plan") (lower s)),
    (contains (lit "plan") (lower s));
    vm_compute; reflexivity.
Qed.

(** C9.  Run on Python objects, with every operation checking what it is
    given, the generator returns on every string, the empty one included:
    no operation raises, the world it runs in is left untouched, and the
    result is a string, the same whatever the world, equal to the reply
    of the embedding above.  (Only an argument that is no string makes it
    raise.)  On the empty input the reply is exactly the three fragments
    that are always present. *)
Theorem generate_nutrition_reply_total_deterministic :
  (forall (s : str) (w : World),
      Dyn.generate_nutrition_reply_on_objects (Dyn.OStr s) w =
        (inr (Dyn.OStr (generate_nutrition_reply s)), w)) /\
  (forall (s : str) (w1 w2 : World),
      fst (Dyn.generate_nutrition_reply_on_objects (Dyn.OStr s) w1) =
      fst (Dyn.generate_nutrition_reply_on_objects (Dyn.OStr s) w2)) /\
  (forall w : World,
      Dyn.generate_nutrition_reply_on_objects Dyn.ONone w =
        (inl Dyn.AttributeError, w)) /\
  (forall w : World,
      Dyn.generate_nutrition_reply_on_objects (Dyn.OStr []) w =
        (inr (Dyn.OStr (opening ++ lit " " ++ general_guidance ++ lit " " ++
                        closing)), w)) /\
  reply_parts (lower []) = [opening; general_guidance; closing] /\
  generate_nutrition_reply [] =
    opening ++ lit " " ++ general_guidance ++ lit " " ++ closing.
Proof.
  split; [|split; [|split; [|split; [|split]]]].
  - apply dyn_generate_str.
  - intros s w1 w2. now rewrite !dyn_generate_str.
  - reflexivity.
  - intros w. rewrite dyn_generate_str. reflexivity.
  - reflexivity.
  - reflexivity.
Qed.

End GeneratorOnObjects.
